(** * Endless runner: score manager and game scene

    A shallow embedding of the bookkeeping of the endless runner demo:
    the [ScoreManager] of [src/features/CloudManager.js] (leaderboard,
    high score and current score in [localStorage]) and the gameplay
    state machine of [GameScene] in [src/game.js] (update tick, level up,
    coin spawning and collection, obstacle hit, revive, restart). *)

From Stdlib Require Import ZArith QArith List String Ascii Bool Lia.
From Stdlib Require Import Sorted Permutation Lqa.
Import ListNotations.

Open Scope Z_scope.
#[local] Set Warnings "-register-all".

(** ** JavaScript helpers *)
Module JS.

(** [localStorage.getItem] returns a string or [null]; a value passed to
    [parseInt] or [JSON.parse] is first converted by [ToString], which
    turns [null] into ["null"]. *)
Definition item := option string.

Definition ToString (v : item) : string :=
  match v with
  | None => "null"
  | Some s => s
  end.

(** StrWhiteSpaceChar restricted to the ASCII range (TAB, LF, VT, FF, CR
    and space). *)
Definition is_ws (c : ascii) : bool :=
  let n := nat_of_ascii c in
  (Nat.eqb n 32 || (Nat.leb 9 n && Nat.leb n 13))%bool.

Fixpoint trim_start (s : string) : string :=
  match s with
  | EmptyString => EmptyString
  | String c t => if is_ws c then trim_start t else s
  end.

(** Digit value of a character in radix up to 36. *)
Definition digit_value (c : ascii) : option Z :=
  let n := Z.of_nat (nat_of_ascii c) in
  if (48 <=? n) && (n <=? 57) then Some (n - 48)
  else if (97 <=? n) && (n <=? 122) then Some (n - 87)
  else if (65 <=? n) && (n <=? 90) then Some (n - 55)
  else None.

(** The longest prefix of radix-[r] digits, accumulated into [acc]
    ([None] while no digit has been read). *)
Fixpoint digits (r : Z) (acc : option Z) (s : string) : option Z :=
  match s with
  | EmptyString => acc
  | String c t =>
      match digit_value c with
      | Some d =>
          if d <? r then
            digits r (Some (match acc with Some a => a | None => 0 end * r + d)) t
          else acc
      | None => acc
      end
  end.

(** [parseInt(string)] with no radix argument (ECMAScript 21.1.2.13):
    leading white space, an optional sign, an optional [0x]/[0X] prefix
    selecting radix 16, then the longest digit prefix.  [None] is [NaN]. *)
Definition parseInt (s0 : string) : option Z :=
  let s1 := trim_start s0 in
  let '(sign, s2) :=
    match s1 with
    | String "-"%char t => (-1, t)
    | String "+"%char t => (1, t)
    | _ => (1, s1)
    end in
  let '(r, s3) :=
    match s2 with
    | String "0"%char (String x t) =>
        if (Ascii.eqb x "x"%char || Ascii.eqb x "X"%char)%bool
        then (16, t) else (10, s2)
    | _ => (10, s2)
    end in
  option_map (Z.mul sign) (digits r None s3).

(** JSON values as produced by [JSON.parse] (numbers restricted to
    integers, which is all the persisted data holds). *)
Inductive json :=
| JNull
| JBool (b : bool)
| JNum (n : Z)
| JStr (s : string)
| JArr (l : list json)
| JObj (kv : list (string * json)).

(** JavaScript truthiness of a parsed JSON value. *)
Definition truthy (v : json) : bool :=
  match v with
  | JNull => false
  | JBool b => b
  | JNum n => negb (n =? 0)
  | JStr s => negb (String.eqb s "")
  | JArr _ | JObj _ => true
  end.

(** [Number.prototype.toString()] of an integer-valued number (of magnitude
    below 10^21, where it writes plain decimal digits): [render] emits the
    digits of [n] least significant first in front of [acc]; the fuel
    [log2 n + 1] bounds the number of decimal digits. *)
Definition digit_char (d : Z) : ascii := ascii_of_nat (Z.to_nat (48 + d)).

Fixpoint render (fuel : nat) (n : Z) (acc : string) : string :=
  match fuel with
  | O => acc
  | S f =>
      let acc' := String (digit_char (n mod 10)) acc in
      if n / 10 =? 0 then acc' else render f (n / 10) acc'
  end.

Definition nat_toString (n : Z) : string :=
  render (S (Z.to_nat (Z.log2 n))) n EmptyString.

Definition int_toString (z : Z) : string :=
  if z <? 0 then String "-"%char (nat_toString (- z)) else nat_toString z.

(** [Number.MAX_SAFE_INTEGER]: integers up to it are exact JS numbers. *)
Definition MAX_SAFE_INTEGER : Z := 9007199254740991.

(** [String.prototype.trim()] (white space restricted to ASCII). *)
Fixpoint trim_end (s : string) : string :=
  match s with
  | EmptyString => EmptyString
  | String c t =>
      let t' := trim_end t in
      if (String.eqb t' "" && is_ws c)%bool then EmptyString else String c t'
  end.

Definition trim (s : string) : string := trim_end (trim_start s).

End JS.

(** ** ScoreManager ([src/features/CloudManager.js]) *)
Module ScoreManager.
Import JS.

(** A leaderboard entry [{score, date, level, username}]. *)
Record entry := mkEntry {
  score : Z;
  date : string;
  level : Z;
  username : string
}.

(** The [leaderboard.sort((a, b) => b.score - a.score)] call.
    [Array.prototype.sort] is stable, so with this comparator its result is
    the unique stable ordering by descending score, computed here by
    insertion: an element goes after every element whose score is at least
    its own. *)
Fixpoint insert_desc (x : entry) (l : list entry) : list entry :=
  match l with
  | [] => [x]
  | y :: t => if score x <=? score y then y :: insert_desc x t else x :: l
  end.

Definition sort_desc (l : list entry) : list entry :=
  fold_left (fun acc x => insert_desc x acc) l [].

(** [username || 'Anonymous']; [None] stands for [null]/[undefined]. *)
Definition or_anonymous (u : option string) : string :=
  match u with
  | None => "Anonymous"
  | Some s => if String.eqb s "" then "Anonymous" else s
  end.

(** [addToLeaderboard(score, level, username)] on the leaderboard [lb]
    read by [getLeaderboard()]; [today] is
    [new Date().toLocaleDateString()].  The result is what is written back
    with [localStorage.setItem('leaderboard', ...)]. *)
Definition addToLeaderboard (lb : list entry) (s l : Z) (u : option string)
    (today : string) : list entry :=
  let newEntry := {| score := s; date := today; level := l;
                     username := or_anonymous u |} in
  let sorted := sort_desc (lb ++ [newEntry]) in
  if 100 <? Z.of_nat (List.length sorted) then firstn 100 sorted else sorted.

(** [updateLeaderboardUsernames(oldUsername, newUsername)]: the forEach
    rewrites matching entries in place; the list is written back only when
    some entry changed, otherwise the store keeps the list it had. *)
Definition rename_entry (old new : string) (e : entry) : entry :=
  if String.eqb (username e) old
  then {| score := score e; date := date e; level := level e; username := new |}
  else e.

Definition updateLeaderboardUsernames (lb : list entry) (old new : string)
    : list entry :=
  if existsb (fun e => String.eqb (username e) old) lb
  then map (rename_entry old new) lb
  else lb.

(** [getCurrentScore()] and [getHighScore()]:
    [parseInt(localStorage.getItem(key)) || 0]. *)
Definition parseInt_or_0 (v : item) : Z :=
  match parseInt (ToString v) with
  | Some z => if z =? 0 then 0 else z
  | None => 0
  end.

Definition getCurrentScore (currentScore_item : item) : Z :=
  parseInt_or_0 currentScore_item.

Definition getHighScore (highScore_item : item) : Z :=
  parseInt_or_0 highScore_item.

(** [getLeaderboard()]: [JSON.parse(localStorage.getItem('leaderboard')) || []]
    inside a try/catch returning [[]].  [JSON.parse] is the host's parser,
    a parameter here; [None] means it threw. *)
Definition getLeaderboard (json_parse : string -> option json) (v : item) : json :=
  match json_parse (ToString v) with
  | None => JArr []
  | Some j => if truthy j then j else JArr []
  end.

(** [setCurrentScore(score)] and [setHighScore(score)]: the item written,
    [score.toString()]. *)
Definition setCurrentScore (s : Z) : item := Some (int_toString s).

Definition setHighScore (s : Z) : item := Some (int_toString s).

(** [updateHighScore(score)] on the stored ['highScore'] item: the new item
    and the returned flag. *)
Definition updateHighScore (s : Z) (highScore_item : item) : item * bool :=
  let currentHigh := getHighScore highScore_item in
  if currentHigh <? s then (setHighScore s, true) else (highScore_item, false).

(** [getGamePlayCount()] / [incrementGamePlayCount()] and
    [getAdViewCount()] / [incrementAdViewCount()] on their items. *)
Definition getGamePlayCount (v : item) : Z := parseInt_or_0 v.

Definition incrementGamePlayCount (v : item) : item :=
  Some (int_toString (parseInt_or_0 v + 1)).

Definition getAdViewCount (v : item) : Z := parseInt_or_0 v.

Definition incrementAdViewCount (v : item) : item :=
  Some (int_toString (parseInt_or_0 v + 1)).

(** [getLeaderboardPage(page, entriesPerPage)]: [slice(startIndex, endIndex)]
    with a non-negative start is [firstn (endIndex - startIndex)] of
    [skipn startIndex]; the page size is positive (the scene passes 6). *)
Record page_data := mkPage {
  entries : list entry;
  totalPages : Z;
  currentPage : Z;
  totalEntries : Z
}.

Definition getLeaderboardPage (lb : list entry) (page : nat)
    (entriesPerPage : positive) : page_data :=
  let per := Pos.to_nat entriesPerPage in
  let startIndex := (page * per)%nat in
  let endIndex := (startIndex + per)%nat in
  {| entries := firstn (endIndex - startIndex) (skipn startIndex lb);
     totalPages := (Z.of_nat (List.length lb) + Z.pos entriesPerPage - 1)
                     / Z.pos entriesPerPage;
     currentPage := Z.of_nat page;
     totalEntries := Z.of_nat (List.length lb) |}.

(** Descending order by score, the order the leaderboard is kept in. *)
Definition desc (a b : entry) : Prop := score b <= score a.

End ScoreManager.

(** ** SettingsManager ([src/features/CloudManager.js]) *)
Module SettingsManager.
Import JS.
Local Open Scope string_scope.

(** [getUsername()]: [localStorage.getItem('username') || ''] *)
Definition getUsername (v : item) : string :=
  match v with
  | None => ""
  | Some s => s
  end.

(** [setUsername(username)] on the ['username'] item: the new item and the
    returned flag. *)
Definition setUsername (username : string) (v : item) : item * bool :=
  if negb (String.eqb (trim username) "") then (Some (trim username), true)
  else (v, false).

(** The character class of the [invalidChars] regular expression: the
    characters less-than, greater-than, colon, double quote (ASCII 34),
    slash, backslash (ASCII 92), bar, question mark and star. *)
Definition invalid_char (c : ascii) : bool :=
  existsb (fun d => Ascii.eqb c d)
    ["<"%char; ">"%char; ":"%char; ascii_of_nat 34; "/"%char;
     ascii_of_nat 92; "|"%char; "?"%char; "*"%char].

Fixpoint has_invalid_char (s : string) : bool :=
  match s with
  | EmptyString => false
  | String c t => (invalid_char c || has_invalid_char t)%bool
  end.

(** [validateUsername(username)]: [{valid, message}]. *)
Definition validateUsername (username : string) : bool * string :=
  if String.eqb (trim username) "" then (false, "Username cannot be empty")
  else if (String.length username <? 2)%nat then
    (false, "Username must be at least 2 characters")
  else if (20 <? String.length username)%nat then
    (false, "Username must be 20 characters or less")
  else if has_invalid_char username then
    (false, "Username contains invalid characters")
  else (true, "Username is valid").

(** [getShowAds()]: [localStorage.getItem('showAds') !== 'false'] *)
Definition getShowAds (v : item) : bool :=
  match v with
  | None => true
  | Some s => negb (String.eqb s "false")
  end.

(** [setShowAds(show)]: [show.toString()] of a boolean. *)
Definition setShowAds (show : bool) : item :=
  Some (if show then "true" else "false").

(** [getPlayerGender()] / [setPlayerGender(gender)] *)
Definition getPlayerGender (v : item) : string :=
  match v with
  | None => "male"
  | Some s => if String.eqb s "" then "male" else s
  end.

Definition setPlayerGender (gender : string) (v : item) : item * bool :=
  if (String.eqb gender "male" || String.eqb gender "female")%bool
  then (Some gender, true) else (v, false).

(** [getPreferredOrientation()] / [setPreferredOrientation(orientation)] *)
Definition getPreferredOrientation (v : item) : string :=
  match v with
  | None => "portrait"
  | Some s => if String.eqb s "" then "portrait" else s
  end.

Definition setPreferredOrientation (orientation : string) (v : item) : item * bool :=
  if (String.eqb orientation "portrait" || String.eqb orientation "landscape")%bool
  then (Some orientation, true) else (v, false).

End SettingsManager.

(** ** GameScene ([src/game.js]) *)
Module GameScene.

(** [GAME_CONFIG] constants used by the gameplay loop.  Speeds are JS
    numbers; they are modelled as exact rationals. *)
Definition PLAYER_START_X : Z := 100.
Definition PLAYER_START_Y : Z := 300.
Definition INITIAL_SPEED : Q := 150.
Definition INITIAL_SPAWN_DELAY : Z := 1500.
Definition SPEED_INCREMENT : Q := 5 # 1000.
Definition LEVEL_SPEED_BONUS : Z := 20.
Definition SPAWN_DELAY_REDUCTION : Z := 150.
Definition MIN_SPAWN_DELAY : Z := 500.
Definition SCORE_PER_COIN : Z := 10.
Definition SCORE_PER_LEVEL : Z := 100.
Definition REVIVE_CHANCE : Z := 20.

(** Coin textures: ['coin'] and ['coin_revive']. *)
Inductive coin_kind := CoinNormal | CoinRevive.

(** The localStorage keys the scene reads and writes through the managers:
    ['currentScore'], ['highScore'], ['leaderboard'] (parsed),
    ['username'] ([None] when unset), ['showAds'] (the stored item) and
    ['gamePlayCount']. *)
Record Store := mkStore {
  st_currentScore : Z;
  st_highScore : Z;
  st_leaderboard : list ScoreManager.entry;
  st_username : option string;
  st_showAds : JS.item;
  st_gamePlayCount : Z
}.


Definition set_st_currentScore (v : Z) (st : Store) : Store :=
  {| st_currentScore := v; st_highScore := st_highScore st; st_leaderboard
  := st_leaderboard st; st_username := st_username st; st_showAds :=
  st_showAds st; st_gamePlayCount := st_gamePlayCount st |}.

Definition set_st_highScore (v : Z) (st : Store) : Store :=
  {| st_currentScore := st_currentScore st; st_highScore := v;
  st_leaderboard := st_leaderboard st; st_username := st_username st;
  st_showAds := st_showAds st; st_gamePlayCount := st_gamePlayCount st |}.

Definition set_st_leaderboard (v : list ScoreManager.entry) (st : Store) : Store :=
  {| st_currentScore := st_currentScore st; st_highScore := st_highScore
  st; st_leaderboard := v; st_username := st_username st; st_showAds :=
  st_showAds st; st_gamePlayCount := st_gamePlayCount st |}.

Definition set_st_username (v : option string) (st : Store) : Store :=
  {| st_currentScore := st_currentScore st; st_highScore := st_highScore
  st; st_leaderboard := st_leaderboard st; st_username := v; st_showAds :=
  st_showAds st; st_gamePlayCount := st_gamePlayCount st |}.

Definition set_st_showAds (v : JS.item) (st : Store) : Store :=
  {| st_currentScore := st_currentScore st; st_highScore := st_highScore
  st; st_leaderboard := st_leaderboard st; st_username := st_username st;
  st_showAds := v; st_gamePlayCount := st_gamePlayCount st |}.

Definition set_st_gamePlayCount (v : Z) (st : Store) : Store :=
  {| st_currentScore := st_currentScore st; st_highScore := st_highScore
  st; st_leaderboard := st_leaderboard st; st_username := st_username st;
  st_showAds := st_showAds st; st_gamePlayCount := v |}.

(** The fields of the scene object that the gameplay logic reads and
    writes: [spawnTimer.delay] and [spawnTimer.paused] are [timerDelay] and
    [timerPaused], [physics.pause()/resume()] is [physicsPaused],
    [powerUps.revive] is [revive], and [player.x]/[player.y] the player's
    position.  Obstacles, coins and text objects are framework objects
    whose positions and display are not modelled. *)
Record Scene := mkScene {
  score : Z;
  level : Z;
  speed : Q;
  spawnDelay : Z;
  timerDelay : Z;
  timerPaused : bool;
  physicsPaused : bool;
  canDoubleJump : bool;
  gameOver : bool;
  isPaused : bool;
  gameStarted : bool;
  reviveGivenThisLevel : bool;
  highScore : Z;
  revive : bool;
  playerX : Z;
  playerY : Z;
  gamePlayCount : Z
}.


Definition set_score (v : Z) (s : Scene) : Scene :=
  {| score := v; level := level s; speed := speed s; spawnDelay :=
  spawnDelay s; timerDelay := timerDelay s; timerPaused := timerPaused s;
  physicsPaused := physicsPaused s; canDoubleJump := canDoubleJump s;
  gameOver := gameOver s; isPaused := isPaused s; gameStarted :=
  gameStarted s; reviveGivenThisLevel := reviveGivenThisLevel s; highScore
  := highScore s; revive := revive s; playerX := playerX s; playerY :=
  playerY s; gamePlayCount := gamePlayCount s |}.

Definition set_level (v : Z) (s : Scene) : Scene :=
  {| score := score s; level := v; speed := speed s; spawnDelay :=
  spawnDelay s; timerDelay := timerDelay s; timerPaused := timerPaused s;
  physicsPaused := physicsPaused s; canDoubleJump := canDoubleJump s;
  gameOver := gameOver s; isPaused := isPaused s; gameStarted :=
  gameStarted s; reviveGivenThisLevel := reviveGivenThisLevel s; highScore
  := highScore s; revive := revive s; playerX := playerX s; playerY :=
  playerY s; gamePlayCount := gamePlayCount s |}.

Definition set_speed (v : Q) (s : Scene) : Scene :=
  {| score := score s; level := level s; speed := v; spawnDelay :=
  spawnDelay s; timerDelay := timerDelay s; timerPaused := timerPaused s;
  physicsPaused := physicsPaused s; canDoubleJump := canDoubleJump s;
  gameOver := gameOver s; isPaused := isPaused s; gameStarted :=
  gameStarted s; reviveGivenThisLevel := reviveGivenThisLevel s; highScore
  := highScore s; revive := revive s; playerX := playerX s; playerY :=
  playerY s; gamePlayCount := gamePlayCount s |}.

Definition set_spawnDelay (v : Z) (s : Scene) : Scene :=
  {| score := score s; level := level s; speed := speed s; spawnDelay :=
  v; timerDelay := timerDelay s; timerPaused := timerPaused s;
  physicsPaused := physicsPaused s; canDoubleJump := canDoubleJump s;
  gameOver := gameOver s; isPaused := isPaused s; gameStarted :=
  gameStarted s; reviveGivenThisLevel := reviveGivenThisLevel s; highScore
  := highScore s; revive := revive s; playerX := playerX s; playerY :=
  playerY s; gamePlayCount := gamePlayCount s |}.

Definition set_timerDelay (v : Z) (s : Scene) : Scene :=
  {| score := score s; level := level s; speed := speed s; spawnDelay :=
  spawnDelay s; timerDelay := v; timerPaused := timerPaused s;
  physicsPaused := physicsPaused s; canDoubleJump := canDoubleJump s;
  gameOver := gameOver s; isPaused := isPaused s; gameStarted :=
  gameStarted s; reviveGivenThisLevel := reviveGivenThisLevel s; highScore
  := highScore s; revive := revive s; playerX := playerX s; playerY :=
  playerY s; gamePlayCount := gamePlayCount s |}.

Definition set_timerPaused (v : bool) (s : Scene) : Scene :=
  {| score := score s; level := level s; speed := speed s; spawnDelay :=
  spawnDelay s; timerDelay := timerDelay s; timerPaused := v;
  physicsPaused := physicsPaused s; canDoubleJump := canDoubleJump s;
  gameOver := gameOver s; isPaused := isPaused s; gameStarted :=
  gameStarted s; reviveGivenThisLevel := reviveGivenThisLevel s; highScore
  := highScore s; revive := revive s; playerX := playerX s; playerY :=
  playerY s; gamePlayCount := gamePlayCount s |}.

Definition set_physicsPaused (v : bool) (s : Scene) : Scene :=
  {| score := score s; level := level s; speed := speed s; spawnDelay :=
  spawnDelay s; timerDelay := timerDelay s; timerPaused := timerPaused s;
  physicsPaused := v; canDoubleJump := canDoubleJump s; gameOver :=
  gameOver s; isPaused := isPaused s; gameStarted := gameStarted s;
  reviveGivenThisLevel := reviveGivenThisLevel s; highScore := highScore
  s; revive := revive s; playerX := playerX s; playerY := playerY s;
  gamePlayCount := gamePlayCount s |}.

Definition set_canDoubleJump (v : bool) (s : Scene) : Scene :=
  {| score := score s; level := level s; speed := speed s; spawnDelay :=
  spawnDelay s; timerDelay := timerDelay s; timerPaused := timerPaused s;
  physicsPaused := physicsPaused s; canDoubleJump := v; gameOver :=
  gameOver s; isPaused := isPaused s; gameStarted := gameStarted s;
  reviveGivenThisLevel := reviveGivenThisLevel s; highScore := highScore
  s; revive := revive s; playerX := playerX s; playerY := playerY s;
  gamePlayCount := gamePlayCount s |}.

Definition set_gameOver (v : bool) (s : Scene) : Scene :=
  {| score := score s; level := level s; speed := speed s; spawnDelay :=
  spawnDelay s; timerDelay := timerDelay s; timerPaused := timerPaused s;
  physicsPaused := physicsPaused s; canDoubleJump := canDoubleJump s;
  gameOver := v; isPaused := isPaused s; gameStarted := gameStarted s;
  reviveGivenThisLevel := reviveGivenThisLevel s; highScore := highScore
  s; revive := revive s; playerX := playerX s; playerY := playerY s;
  gamePlayCount := gamePlayCount s |}.

Definition set_isPaused (v : bool) (s : Scene) : Scene :=
  {| score := score s; level := level s; speed := speed s; spawnDelay :=
  spawnDelay s; timerDelay := timerDelay s; timerPaused := timerPaused s;
  physicsPaused := physicsPaused s; canDoubleJump := canDoubleJump s;
  gameOver := gameOver s; isPaused := v; gameStarted := gameStarted s;
  reviveGivenThisLevel := reviveGivenThisLevel s; highScore := highScore
  s; revive := revive s; playerX := playerX s; playerY := playerY s;
  gamePlayCount := gamePlayCount s |}.

Definition set_gameStarted (v : bool) (s : Scene) : Scene :=
  {| score := score s; level := level s; speed := speed s; spawnDelay :=
  spawnDelay s; timerDelay := timerDelay s; timerPaused := timerPaused s;
  physicsPaused := physicsPaused s; canDoubleJump := canDoubleJump s;
  gameOver := gameOver s; isPaused := isPaused s; gameStarted := v;
  reviveGivenThisLevel := reviveGivenThisLevel s; highScore := highScore
  s; revive := revive s; playerX := playerX s; playerY := playerY s;
  gamePlayCount := gamePlayCount s |}.

Definition set_reviveGivenThisLevel (v : bool) (s : Scene) : Scene :=
  {| score := score s; level := level s; speed := speed s; spawnDelay :=
  spawnDelay s; timerDelay := timerDelay s; timerPaused := timerPaused s;
  physicsPaused := physicsPaused s; canDoubleJump := canDoubleJump s;
  gameOver := gameOver s; isPaused := isPaused s; gameStarted :=
  gameStarted s; reviveGivenThisLevel := v; highScore := highScore s;
  revive := revive s; playerX := playerX s; playerY := playerY s;
  gamePlayCount := gamePlayCount s |}.

Definition set_highScore (v : Z) (s : Scene) : Scene :=
  {| score := score s; level := level s; speed := speed s; spawnDelay :=
  spawnDelay s; timerDelay := timerDelay s; timerPaused := timerPaused s;
  physicsPaused := physicsPaused s; canDoubleJump := canDoubleJump s;
  gameOver := gameOver s; isPaused := isPaused s; gameStarted :=
  gameStarted s; reviveGivenThisLevel := reviveGivenThisLevel s; highScore
  := v; revive := revive s; playerX := playerX s; playerY := playerY s;
  gamePlayCount := gamePlayCount s |}.

Definition set_revive (v : bool) (s : Scene) : Scene :=
  {| score := score s; level := level s; speed := speed s; spawnDelay :=
  spawnDelay s; timerDelay := timerDelay s; timerPaused := timerPaused s;
  physicsPaused := physicsPaused s; canDoubleJump := canDoubleJump s;
  gameOver := gameOver s; isPaused := isPaused s; gameStarted :=
  gameStarted s; reviveGivenThisLevel := reviveGivenThisLevel s; highScore
  := highScore s; revive := v; playerX := playerX s; playerY := playerY s;
  gamePlayCount := gamePlayCount s |}.

Definition set_playerX (v : Z) (s : Scene) : Scene :=
  {| score := score s; level := level s; speed := speed s; spawnDelay :=
  spawnDelay s; timerDelay := timerDelay s; timerPaused := timerPaused s;
  physicsPaused := physicsPaused s; canDoubleJump := canDoubleJump s;
  gameOver := gameOver s; isPaused := isPaused s; gameStarted :=
  gameStarted s; reviveGivenThisLevel := reviveGivenThisLevel s; highScore
  := highScore s; revive := revive s; playerX := v; playerY := playerY s;
  gamePlayCount := gamePlayCount s |}.

Definition set_playerY (v : Z) (s : Scene) : Scene :=
  {| score := score s; level := level s; speed := speed s; spawnDelay :=
  spawnDelay s; timerDelay := timerDelay s; timerPaused := timerPaused s;
  physicsPaused := physicsPaused s; canDoubleJump := canDoubleJump s;
  gameOver := gameOver s; isPaused := isPaused s; gameStarted :=
  gameStarted s; reviveGivenThisLevel := reviveGivenThisLevel s; highScore
  := highScore s; revive := revive s; playerX := playerX s; playerY := v;
  gamePlayCount := gamePlayCount s |}.

Definition set_gamePlayCount (v : Z) (s : Scene) : Scene :=
  {| score := score s; level := level s; speed := speed s; spawnDelay :=
  spawnDelay s; timerDelay := timerDelay s; timerPaused := timerPaused s;
  physicsPaused := physicsPaused s; canDoubleJump := canDoubleJump s;
  gameOver := gameOver s; isPaused := isPaused s; gameStarted :=
  gameStarted s; reviveGivenThisLevel := reviveGivenThisLevel s; highScore
  := highScore s; revive := revive s; playerX := playerX s; playerY :=
  playerY s; gamePlayCount := v |}.

Definition World : Type := (Scene * Store)%type.

(** [settingsManager.getUsername()]: [localStorage.getItem('username') || ''] *)
Definition getUsername (st : Store) : string :=
  match st_username st with
  | None => ""
  | Some u => u
  end.

(** [levelUp(newLevel)] *)
Definition levelUp (newLevel : Z) (s : Scene) : Scene :=
  let s := set_level newLevel s in
  let s := set_speed (speed s + inject_Z (LEVEL_SPEED_BONUS * (level s - 1)))%Q s in
  let s := set_spawnDelay (Z.max MIN_SPAWN_DELAY
             (INITIAL_SPAWN_DELAY - (level s - 1) * SPAWN_DELAY_REDUCTION)) s in
  let s := set_timerDelay (spawnDelay s) s in
  set_reviveGivenThisLevel false s.

(** [update()]: one frame.  Setting obstacle and coin velocities and
    destroying off-screen objects act on framework objects only;
    [touchingDown] is [player.body.touching.down]. *)
Definition update (touchingDown : bool) (s : Scene) : Scene :=
  if (negb (gameStarted s) || gameOver s || isPaused s)%bool then s else
  let s := set_speed (speed s + SPEED_INCREMENT)%Q s in
  let newLevel := score s / SCORE_PER_LEVEL + 1 in
  let s := if level s <? newLevel then levelUp newLevel s else s in
  if touchingDown then set_canDoubleJump true s else s.

(** [grantRevivePowerUp()] *)
Definition grantRevivePowerUp (s : Scene) : Scene := set_revive true s.

(** [collectCoin(player, coin)]: [k] is the texture of the collected coin. *)
Definition collectCoin (k : coin_kind) (w : World) : World :=
  let '(s, st) := w in
  let s := set_score (score s + SCORE_PER_COIN) s in
  let st := set_st_currentScore (score s) st in
  let '(s, st) :=
    if highScore s <? score s
    then (set_highScore (score s) s, set_st_highScore (score s) st)
    else (s, st) in
  match k with
  | CoinRevive => (grantRevivePowerUp s, st)
  | CoinNormal => (s, st)
  end.

(** [spawnCoin()]: [roll] is [Phaser.Math.Between(1, 100)]; the result
    carries the texture of the coin created. *)
Definition spawnCoin (roll : Z) (s : Scene) : Scene * coin_kind :=
  if (negb (reviveGivenThisLevel s) && (roll <=? REVIVE_CHANCE))%bool
  then (set_reviveGivenThisLevel true s, CoinRevive)
  else (s, CoinNormal).

(** [saveScoreToLeaderboard()]; [today] is the date string of the entry. *)
Definition saveScoreToLeaderboard (today : string) (s : Scene) (st : Store)
    : Store :=
  if score s <=? 0 then st
  else set_st_leaderboard
         (ScoreManager.addToLeaderboard (st_leaderboard st) (score s) (level s)
            (Some (getUsername st)) today) st.

(** The first lines shared by both game-over handlers. *)
Definition halt (s : Scene) : Scene :=
  set_timerPaused true (set_physicsPaused true (set_gameOver true s)).

(** [handleReviveGameOver()] *)
Definition handleReviveGameOver (s : Scene) : Scene := halt s.

(** [handleNormalGameOver()] *)
Definition handleNormalGameOver (today : string) (w : World) : World :=
  let '(s, st) := w in
  let s := halt s in
  let st := saveScoreToLeaderboard today s st in
  let '(s, st) :=
    if highScore s <? score s
    then (set_highScore (score s) s, set_st_highScore (score s) st)
    else (s, st) in
  (set_revive false s, st).

(** [hitObstacle()] *)
Definition hitObstacle (today : string) (w : World) : World :=
  let '(s, st) := w in
  if revive s then (handleReviveGameOver s, st)
  else handleNormalGameOver today (s, st).

(** [useRevive()]; the player velocity reset acts on the physics body. *)
Definition useRevive (s : Scene) : Scene :=
  if negb (revive s) then s else
  let s := set_revive false (set_gameOver false s) in
  let s := set_playerY 200 (set_playerX PLAYER_START_X s) in
  set_timerPaused false (set_physicsPaused false s).

(** [performStartGame()] *)
Definition performStartGame (s : Scene) : Scene :=
  set_revive false (set_timerPaused false (set_physicsPaused false s)).

(** The ad check of [startGame()]:
    [localStorage.getItem('showAds') === 'true']; [restartGame()] uses
    [settingsManager.getShowAds()] instead. *)
Definition startGame_adsEnabled (v : JS.item) : bool :=
  match v with
  | Some s => String.eqb s "true"%string
  | None => false
  end.

(** [startGame()]: when the ad popup is shown the game starts only once it
    is closed ([performStartGame] from the popup). *)
Definition startGame (w : World) : World :=
  let '(s, st) := w in
  let s := set_score 0 (set_gameStarted true s) in
  let st := set_st_currentScore 0 st in
  let s := set_gamePlayCount (gamePlayCount s + 1) s in
  let st := set_st_gamePlayCount (gamePlayCount s) st in
  if (startGame_adsEnabled (st_showAds st) && (gamePlayCount s mod 3 =? 0))%bool
  then (s, st)
  else (performStartGame s, st).

(** [performRestart()] *)
Definition performRestart (w : World) : World :=
  let '(s, st) := w in
  let s := set_score 0 (set_gameOver false s) in
  let st := set_st_currentScore 0 st in
  let s := set_level 1 s in
  let s := set_spawnDelay INITIAL_SPAWN_DELAY (set_speed INITIAL_SPEED s) in
  let s := set_canDoubleJump true s in
  let s := set_playerY PLAYER_START_Y (set_playerX PLAYER_START_X s) in
  let s := set_revive false s in
  let s := set_timerPaused false (set_physicsPaused false s) in
  (set_timerDelay (spawnDelay s) s, st).

(** [restartGame()]: [scoreManager.incrementGamePlayCount()] stores the
    stored count plus one; the ad check is [settingsManager.getShowAds()]. *)
Definition restartGame (w : World) : World :=
  let '(s, st) := w in
  let s := set_gamePlayCount (gamePlayCount s + 1) s in
  let st := set_st_gamePlayCount (st_gamePlayCount st + 1) st in
  if (SettingsManager.getShowAds (st_showAds st) && (gamePlayCount s mod 3 =? 0))%bool
  then (s, st)
  else performRestart (s, st).

(** [togglePause()] *)
Definition togglePause (s : Scene) : Scene :=
  let s := set_isPaused (negb (isPaused s)) s in
  set_timerPaused (isPaused s) (set_physicsPaused (isPaused s) s).

(** [jump()]: the vertical velocity is a physics effect; [touchingDown] is
    [player.body.touching.down]. *)
Definition jump (touchingDown : bool) (s : Scene) : Scene :=
  if touchingDown then set_canDoubleJump true s
  else if canDoubleJump s then set_canDoubleJump false s
  else s.

(** [initializeGameState()] followed by the physics pause of [setupUI()]
    and the paused spawn timer of [setupSpawnTimer()]: the scene state when
    [GameScene] is created, from the stored values. *)
Definition initializeGameState (st : Store) : Scene :=
  {| score := st_currentScore st; level := 1; speed := INITIAL_SPEED;
     spawnDelay := INITIAL_SPAWN_DELAY; timerDelay := INITIAL_SPAWN_DELAY;
     timerPaused := true; physicsPaused := true; canDoubleJump := true;
     gameOver := false; isPaused := false; gameStarted := false;
     reviveGivenThisLevel := false; highScore := st_highScore st;
     revive := false; playerX := PLAYER_START_X;
     playerY := PLAYER_START_Y - 10; gamePlayCount := st_gamePlayCount st |}.

(** The inputs the scene reacts to once created: a frame, a firing of the
    spawn timer, the two overlap callbacks, the SPACE and P keys, the
    START, RESTART, REVIVE and PAUSE buttons, and the closing of the ad
    popup. *)
Inductive event :=
| EvUpdate (touchingDown : bool)
| EvSpawnTick (roll : Z)
| EvCollect (k : coin_kind)
| EvHit (today : string)
| EvKeySpace (touchingDown : bool)
| EvKeyP
| EvStartBtn
| EvJumpBtn (touchingDown : bool)
| EvPauseBtn
| EvRestartBtn
| EvReviveBtn
| EvAdClosed.

(** One input; the second component is the texture of the coin the spawn
    timer created, if any.  The spawn timer callback also calls
    [spawnObstacle()], which only creates a framework object. *)
Definition step (ev : event) (w : World) : World * option coin_kind :=
  let '(s, st) := w in
  match ev with
  | EvUpdate td => ((update td s, st), None)
  | EvSpawnTick r =>
      if (negb (gameOver s) && negb (isPaused s))%bool
      then let '(s', k) := spawnCoin r s in ((s', st), Some k)
      else (w, None)
  | EvCollect k => (collectCoin k w, None)
  | EvHit d => (hitObstacle d w, None)
  | EvKeySpace td =>
      if negb (gameStarted s) then (startGame w, None)
      else if (gameOver s && negb (revive s))%bool then (restartGame w, None)
      else if negb (isPaused s) then ((jump td s, st), None)
      else (w, None)
  | EvKeyP | EvPauseBtn =>
      if (gameStarted s && negb (gameOver s))%bool
      then ((togglePause s, st), None) else (w, None)
  | EvStartBtn => if negb (gameStarted s) then (startGame w, None) else (w, None)
  | EvJumpBtn td =>
      if (gameStarted s && negb (gameOver s) && negb (isPaused s))%bool
      then ((jump td s, st), None) else (w, None)
  | EvRestartBtn =>
      if (gameOver s && negb (revive s))%bool then (restartGame w, None)
      else (w, None)
  | EvReviveBtn =>
      if (gameOver s && revive s)%bool then ((useRevive s, st), None)
      else (w, None)
  | EvAdClosed =>
      (if gameStarted s then performRestart w else (performStartGame s, st), None)
  end.

(** A sequence of inputs, with the coins the spawn timer created. *)
Fixpoint run (evs : list event) (w : World) : World * list coin_kind :=
  match evs with
  | [] => (w, [])
  | ev :: evs' =>
      let '(w1, o) := step ev w in
      let '(w2, ks) := run evs' w1 in
      (w2, match o with Some k => k :: ks | None => ks end)
  end.

(** Whether some input of the sequence raises the level. *)
Fixpoint level_rises (evs : list event) (w : World) : bool :=
  match evs with
  | [] => false
  | ev :: evs' =>
      let w1 := fst (step ev w) in
      ((level (fst w) <? level (fst w1)) || level_rises evs' w1)%bool
  end.

(** Number of revive coins in a list of created coins. *)
Definition count_revive (ks : list coin_kind) : nat :=
  List.length (filter (fun k => match k with CoinRevive => true | CoinNormal => false end) ks).

End GameScene.


(** ** SettingsScene ([src/game.js]) *)
Module SettingsScene.
Import JS ScoreManager.
Local Open Scope string_scope.

(** [updateLeaderboardUsernames(oldUsername, newUsername)] of the scene:
    nothing when there was no previous username. *)
Definition updateLeaderboardUsernames (oldUsername newUsername : string)
    (lb : list entry) : list entry :=
  if String.eqb oldUsername "" then lb
  else ScoreManager.updateLeaderboardUsernames lb oldUsername newUsername.

(** [saveUsername(username, elements)] on the ['username'] item and the
    stored leaderboard; removing the input elements is display only. *)
Definition saveUsername (username : string) (username_item : item)
    (lb : list entry) : item * list entry :=
  if negb (String.eqb (trim username) "") then
    let oldUsername := SettingsManager.getUsername username_item in
    let newUsername := trim username in
    let username_item := fst (SettingsManager.setUsername newUsername username_item) in
    let lb := if negb (String.eqb oldUsername newUsername)
              then updateLeaderboardUsernames oldUsername newUsername lb
              else lb in
    (username_item, lb)
  else (username_item, lb).

End SettingsScene.

(** ** LeaderboardScene ([src/game.js]) *)
Module LeaderboardScene.
Import ScoreManager.

(** [this.itemsPerPage = 6] *)
Definition itemsPerPage : positive := 6.

(** [createLeaderboardEntries()]: [this.totalPages] from page 0. *)
Definition createLeaderboardEntries (lb : list entry) : Z :=
  totalPages (getLeaderboardPage lb 0 itemsPerPage).

(** The PREV and NEXT buttons ([pointerdown]). *)
Inductive button := PrevButton | NextButton.

Definition press (totalPages : Z) (currentPage : nat) (b : button) : nat :=
  match b with
  | PrevButton => if (0 <? currentPage)%nat then pred currentPage else currentPage
  | NextButton =>
      if Z.of_nat currentPage <? totalPages - 1 then S currentPage else currentPage
  end.

(** [this.currentPage] after a sequence of button presses, from
    [this.currentPage = 0]. *)
Definition navigate (lb : list entry) (bs : list button) : nat :=
  fold_left (press (createLeaderboardEntries lb)) bs 0%nat.

(** [displayCurrentPage()]: the page shown, and the rank printed in front
    of its [index]-th row. *)
Definition displayCurrentPage (lb : list entry) (currentPage : nat) : list entry :=
  entries (getLeaderboardPage lb currentPage itemsPerPage).

Definition rank (currentPage index : nat) : nat :=
  (currentPage * Pos.to_nat itemsPerPage + index + 1)%nat.

End LeaderboardScene.

(** ** Inputs of GameScene read outside the scene state *)
Module GameSceneInputs.
Import JS GameScene.
Local Open Scope string_scope.

(** [GAME_CONFIG.JUMP_VELOCITY] and [GAME_CONFIG.DOUBLE_JUMP_VELOCITY] *)
Definition JUMP_VELOCITY : Z := -420.
Definition DOUBLE_JUMP_VELOCITY : Z := -360.

(** The [player.setVelocityY(...)] call made by [jump()], if any. *)
Definition jump_velocity (touchingDown : bool) (s : Scene) : option Z :=
  if touchingDown then Some JUMP_VELOCITY
  else if canDoubleJump s then Some DOUBLE_JUMP_VELOCITY
  else None.

(** A sequence of [jump()] calls, with the velocities they set. *)
Fixpoint jumps (tds : list bool) (s : Scene) : Scene * list Z :=
  match tds with
  | [] => (s, [])
  | td :: r =>
      let '(s', vs) := jumps r (jump td s) in
      (s', match jump_velocity td s with Some v => v :: vs | None => vs end)
  end.


End GameSceneInputs.

(** ** Concrete inputs *)
Module Samples.
Import ScoreManager.

(** A leaderboard of ten entries of score 100. *)
Definition ten_entries : list entry :=
  repeat (mkEntry 100 "1/1/2026" 1 "Player") 10.

(** A leaderboard with entries of two players. *)
Definition bob_entry : entry := mkEntry 30 "1/1/2026" 1 "Bob".

Definition two_players : list entry :=
  [mkEntry 50 "1/1/2026" 1 "Alice"; bob_entry].

(** A host parser that only accepts ["null"]. *)
Definition null_only_parser (s : string) : option JS.json :=
  if String.eqb s "null" then Some JS.JNull else None.

(** An empty store and the scene created from it. *)
Definition store0 : GameScene.Store :=
  GameScene.mkStore 0 0 [] None (Some "false"%string) 0.

Definition scene0 : GameScene.Scene := GameScene.initializeGameState store0.

(** The running scene right after START. *)
Definition running0 : GameScene.Scene := fst (GameScene.startGame (scene0, store0)).

(** A scene holding a revive token. *)
Definition revive0 : GameScene.Scene := GameScene.grantRevivePowerUp running0.

(** Ten coins after START (score 100, still level 1), then a frame
    (level 2) and ten more coins (score 200, level 2). *)
Definition world100 : GameScene.World :=
  Nat.iter 10 (GameScene.collectCoin GameScene.CoinNormal)
    (GameScene.startGame (scene0, store0)).

Definition sceneA : GameScene.Scene := fst world100.

Definition world200 : GameScene.World :=
  Nat.iter 10 (GameScene.collectCoin GameScene.CoinNormal)
    (GameScene.update false sceneA, snd world100).

Definition sceneB : GameScene.Scene := fst world200.

(** A full leaderboard: a hundred entries of score 1000. *)
Definition hundred_entries : list ScoreManager.entry :=
  repeat (ScoreManager.mkEntry 1000 "1/1/2026" 3 "Player") 100.

Definition store_full : GameScene.Store :=
  GameScene.mkStore 0 1000 hundred_entries (Some "Player"%string) (Some "false"%string) 0.

(** Five coins after START on a full leaderboard: score 50, level 1. *)
Definition world50 : GameScene.World :=
  Nat.iter 5 (GameScene.collectCoin GameScene.CoinNormal)
    (GameScene.startGame (GameScene.initializeGameState store_full, store_full)).

(** Four coins after START on the leaderboard of two players: score 40,
    between the two stored scores, for the user ['Carol']. *)
Definition store_two : GameScene.Store :=
  GameScene.mkStore 0 0 two_players (Some "Carol"%string) (Some "false"%string) 0.

Definition world40 : GameScene.World :=
  Nat.iter 4 (GameScene.collectCoin GameScene.CoinNormal)
    (GameScene.startGame (GameScene.initializeGameState store_two, store_two)).

(** Three spawn-timer firings, each rolling 1 (a revive coin whenever the
    flag allows), with a coin collected in between. *)
Definition spawn_events : list GameScene.event :=
  [GameScene.EvSpawnTick 1; GameScene.EvCollect GameScene.CoinRevive;
   GameScene.EvSpawnTick 1; GameScene.EvUpdate true; GameScene.EvSpawnTick 1].

End Samples.

(** ** Properties of the leaderboard operations *)
Module LeaderboardProofs.
Import JS ScoreManager.

Lemma insert_desc_perm x l : Permutation (insert_desc x l) (x :: l).
Proof.
  induction l as [|y t IH]; simpl; [reflexivity|].
  destruct (score x <=? score y).
  - eapply perm_trans; [apply perm_skip, IH | apply perm_swap].
  - reflexivity.
Qed.

Lemma insert_desc_sorted x l : Sorted desc l -> Sorted desc (insert_desc x l).
Proof.
  induction 1 as [|y t Ht IH Hhd]; simpl.
  - repeat constructor.
  - destruct (Z.leb_spec (score x) (score y)) as [Hxy|Hxy].
    + constructor; [exact IH|].
      destruct t as [|z t']; simpl.
      * constructor. unfold desc. lia.
      * inversion Hhd as [|? ? Hyz]; subst. unfold desc in *.
        destruct (score x <=? score z); constructor; unfold desc; lia.
    + constructor.
      * constructor; assumption.
      * constructor. unfold desc. lia.
Qed.

Lemma fold_insert_perm l acc :
  Permutation (fold_left (fun acc x => insert_desc x acc) l acc) (l ++ acc).
Proof.
  revert acc; induction l as [|a l IH]; intros acc; simpl; [reflexivity|].
  eapply perm_trans; [apply IH|].
  eapply perm_trans; [apply Permutation_app_head, insert_desc_perm|].
  symmetry; apply Permutation_middle.
Qed.

Lemma fold_insert_sorted l acc :
  Sorted desc acc -> Sorted desc (fold_left (fun acc x => insert_desc x acc) l acc).
Proof.
  revert acc; induction l as [|a l IH]; intros acc Hacc; simpl; [exact Hacc|].
  apply IH, insert_desc_sorted, Hacc.
Qed.

Lemma sort_desc_perm l : Permutation (sort_desc l) l.
Proof.
  unfold sort_desc. rewrite <- (app_nil_r l) at 2. apply fold_insert_perm.
Qed.

Lemma sort_desc_sorted l : Sorted desc (sort_desc l).
Proof. apply fold_insert_sorted. constructor. Qed.

Lemma Sorted_firstn n l : Sorted desc l -> Sorted desc (firstn n l).
Proof.
  revert l; induction n as [|n IH]; intros l Hl; simpl; [constructor|].
  destruct l as [|a l]; [constructor|].
  inversion Hl as [|? ? Hl' Hhd]; subst.
  constructor; [apply IH, Hl'|].
  destruct n; simpl; [constructor|].
  destruct l; simpl; [constructor|].
  inversion Hhd; constructor; assumption.
Qed.

Lemma in_firstn_in {A} n (l : list A) x : In x (firstn n l) -> In x l.
Proof.
  intros H. rewrite <- (firstn_skipn n l). apply in_or_app. left; exact H.
Qed.

(** The result of [addToLeaderboard], unfolded. *)
Lemma addToLeaderboard_eq lb s l u d :
  addToLeaderboard lb s l u d =
  firstn 100 (sort_desc (lb ++ [mkEntry s d l (or_anonymous u)])).
Proof.
  unfold addToLeaderboard.
  set (r := sort_desc _).
  destruct (Z.ltb_spec 100 (Z.of_nat (List.length r))) as [H|H]; [reflexivity|].
  symmetry. apply firstn_all2. lia.
Qed.

(** Below 100 entries nothing is cut: the stored list is a permutation of
    the old entries and the new one. *)
Lemma addToLeaderboard_perm_small lb s l u d :
  (List.length lb < 100)%nat ->
  Permutation (addToLeaderboard lb s l u d) (lb ++ [mkEntry s d l (or_anonymous u)]).
Proof.
  intros Hlen. rewrite addToLeaderboard_eq, firstn_all2; [apply sort_desc_perm|].
  rewrite (Permutation_length (sort_desc_perm _)), length_app. simpl. lia.
Qed.

(** C1 (corrected).  After every call to [addToLeaderboard] the stored
    leaderboard is sorted by score in descending order and holds at most
    100 entries: it is the first 100 entries of the old entries plus the
    new one, stably sorted by descending score. *)
Theorem addToLeaderboard_sorted_top100 lb s l u d :
  let r := addToLeaderboard lb s l u d in
  Sorted desc r /\ (List.length r <= 100)%nat /\
  r = firstn 100 (sort_desc (lb ++ [mkEntry s d l (or_anonymous u)])) /\
  Permutation (sort_desc (lb ++ [mkEntry s d l (or_anonymous u)]))
              (lb ++ [mkEntry s d l (or_anonymous u)]).
Proof.
  cbv zeta. rewrite addToLeaderboard_eq.
  split; [apply Sorted_firstn, sort_desc_sorted|].
  split; [apply firstn_le_length|].
  split; [reflexivity|apply sort_desc_perm].
Qed.

(** C1 counterexample: adding a score to a leaderboard of ten entries
    stores eleven entries, so the leaderboard is not capped at 10. *)
Lemma addToLeaderboard_exceeds_10 :
  ~ (forall lb s l u d, (List.length (addToLeaderboard lb s l u d) <= 10)%nat).
Proof.
  intros H.
  pose proof (H Samples.ten_entries 50 1 (Some "Player"%string) "1/2/2026"%string) as H1.
  assert (E : List.length (addToLeaderboard Samples.ten_entries 50 1
                (Some "Player"%string) "1/2/2026"%string) = 11%nat)
    by reflexivity.
  lia.
Qed.

(** C8.  [updateLeaderboardUsernames old new] keeps the length and the
    order of the leaderboard; the entry at each position has its username
    replaced by [new] when it equals [old], every other field unchanged, and
    is left as it was otherwise. *)
Theorem updateLeaderboardUsernames_spec lb old new :
  List.length (updateLeaderboardUsernames lb old new) = List.length lb /\
  (forall i e, nth_error lb i = Some e ->
     nth_error (updateLeaderboardUsernames lb old new) i =
     Some (if String.eqb (username e) old
           then mkEntry (score e) (date e) (level e) new else e)).
Proof.
  unfold updateLeaderboardUsernames.
  destruct (existsb (fun e => String.eqb (username e) old) lb) eqn:Hex.
  - split; [apply length_map|].
    intros i e Hi. rewrite (map_nth_error _ _ _ Hi). reflexivity.
  - split; [reflexivity|].
    intros i e Hi. rewrite Hi.
    destruct (String.eqb (username e) old) eqn:He; [|reflexivity].
    exfalso.
    assert (Hin : In e lb) by (eapply nth_error_In; exact Hi).
    assert (Htrue : existsb (fun e => String.eqb (username e) old) lb = true)
      by (apply existsb_exists; exists e; split; assumption).
    congruence.
Qed.

Lemma updateLeaderboardUsernames_spec_witness :
  nth_error Samples.two_players 1%nat = Some Samples.bob_entry /\
  nth_error (updateLeaderboardUsernames Samples.two_players "Bob" "Robert") 1%nat =
  Some (mkEntry 30 "1/1/2026" 1 "Robert").
Proof.
  split; [reflexivity|].
  exact (proj2 (updateLeaderboardUsernames_spec Samples.two_players "Bob" "Robert")
           1%nat Samples.bob_entry eq_refl).
Defined.

(** C9 (corrected).  Reads fall back to their defaults: [getLeaderboard]
    gives [[]] when the item is missing (given that [JSON.parse('null')] is
    [null]) or [JSON.parse] throws; [getHighScore] and [getCurrentScore]
    give 0 when the item is missing or [parseInt] yields [NaN], and the
    parsed integer prefix otherwise. *)
Theorem storage_read_defaults (json_parse : string -> option json)
    (parse_null : json_parse "null"%string = Some JNull) :
  getLeaderboard json_parse None = JArr [] /\
  (forall s, json_parse s = None -> getLeaderboard json_parse (Some s) = JArr []) /\
  getHighScore None = 0 /\ getCurrentScore None = 0 /\
  (forall s, parseInt s = None ->
     getHighScore (Some s) = 0 /\ getCurrentScore (Some s) = 0) /\
  (forall s z, parseInt s = Some z ->
     getHighScore (Some s) = z /\ getCurrentScore (Some s) = z).
Proof.
  unfold getLeaderboard, getHighScore, getCurrentScore, parseInt_or_0.
  split; [simpl; rewrite parse_null; reflexivity|].
  split; [intros s Hs; simpl; rewrite Hs; reflexivity|].
  split; [reflexivity|]. split; [reflexivity|].
  split; [intros s Hs; simpl; rewrite Hs; split; reflexivity|].
  intros s z Hs; simpl; rewrite Hs.
  destruct (Z.eqb_spec z 0); subst; split; reflexivity.
Qed.

Lemma storage_read_defaults_witness :
  getLeaderboard Samples.null_only_parser None = JArr [] /\
  getHighScore (Some "abc"%string) = 0.
Proof.
  destruct (storage_read_defaults Samples.null_only_parser eq_refl)
    as [H1 [_ [_ [_ [H5 _]]]]].
  split; [exact H1|].
  exact (proj1 (H5 "abc"%string eq_refl)).
Defined.

(** C9 counterexample: a stored high score ["12abc"] is not a number, yet
    it reads as 12 (and ["0x1A"] reads as 26). *)
Lemma getHighScore_numeric_prefix :
  getHighScore (Some "12abc"%string) = 12 /\
  getCurrentScore (Some "0x1A"%string) = 26.
Proof. split; reflexivity. Qed.

(** C10.  The entry [addToLeaderboard] builds carries the username
    ['Anonymous'] for [null], [undefined] or [''], and the given username
    otherwise; every stored entry is an old one or that entry, and the
    entry is stored whenever the old leaderboard has fewer than 100
    entries. *)
Theorem addToLeaderboard_username lb s l u d :
  let e := mkEntry s d l (or_anonymous u) in
  (forall x, In x (addToLeaderboard lb s l u d) -> In x lb \/ x = e) /\
  ((List.length lb < 100)%nat -> In e (addToLeaderboard lb s l u d)) /\
  ((u = None \/ u = Some ""%string) -> username e = "Anonymous"%string) /\
  (forall v, u = Some v -> v <> ""%string -> username e = v).
Proof.
  cbv zeta. rewrite addToLeaderboard_eq.
  set (e := mkEntry s d l (or_anonymous u)).
  split; [|split; [|split]].
  - intros x Hx.
    apply in_firstn_in, (Permutation_in _ (sort_desc_perm _)), in_app_or in Hx.
    destruct Hx as [Hx|[Hx|[]]]; [left; exact Hx|right; symmetry; exact Hx].
  - intros Hlen.
    rewrite firstn_all2.
    + apply (Permutation_in _ (Permutation_sym (sort_desc_perm _))).
      apply in_or_app; right; left; reflexivity.
    + rewrite (Permutation_length (sort_desc_perm _)), length_app. simpl. lia.
  - intros [Hu|Hu]; subst u; reflexivity.
  - intros v Hu Hv; subst u; simpl.
    destruct (String.eqb_spec v ""); [contradiction|reflexivity].
Qed.

Lemma addToLeaderboard_username_witness :
  In (mkEntry 45 "1/2/2026" 1 "Anonymous")
     (addToLeaderboard Samples.two_players 45 1 (Some ""%string) "1/2/2026"%string) /\
  mkEntry 45 "1/2/2026" 1 "Anonymous" =
  mkEntry 45 "1/2/2026" 1 (or_anonymous (Some ""%string)).
Proof.
  destruct (addToLeaderboard_username Samples.two_players 45 1 (Some ""%string)
              "1/2/2026"%string) as [_ [H2 [H3 _]]].
  split; [apply H2; simpl; lia|].
  reflexivity.
Defined.

End LeaderboardProofs.

(** ** Properties of the gameplay loop *)
Module GameProofs.
Import GameScene.
Ltac split_ifs :=
  repeat match goal with
         | |- context [if ?b then _ else _] => destruct b
         end.

Lemma collectCoin_score k w :
  score (fst (collectCoin k w)) = score (fst w) + SCORE_PER_COIN /\
  st_currentScore (snd (collectCoin k w)) = score (fst w) + SCORE_PER_COIN.
Proof.
  destruct w as [s st]. unfold collectCoin. simpl.
  split_ifs; simpl; split; reflexivity.
Qed.

Lemma startGame_score w :
  score (fst (startGame w)) = 0 /\ st_currentScore (snd (startGame w)) = 0.
Proof.
  destruct w as [s st]. unfold startGame. simpl.
  split_ifs; simpl; split; reflexivity.
Qed.

(** C5.  After START and [n] collected ordinary coins, with no other input,
    the score and the stored current score are [n * 10]. *)
Theorem score_after_coins w n :
  score (fst (Nat.iter n (collectCoin CoinNormal) (startGame w))) =
    SCORE_PER_COIN * Z.of_nat n /\
  st_currentScore (snd (Nat.iter n (collectCoin CoinNormal) (startGame w))) =
    SCORE_PER_COIN * Z.of_nat n.
Proof.
  induction n as [|n IH].
  - simpl Nat.iter. change (Z.of_nat 0) with 0. rewrite Z.mul_0_r.
    apply startGame_score.
  - rewrite Nat.iter_succ.
    destruct (collectCoin_score CoinNormal
                (Nat.iter n (collectCoin CoinNormal) (startGame w))) as [H1 H2].
    rewrite H1, H2, (proj1 IH).
    unfold SCORE_PER_COIN. split; lia.
Qed.

(** C7.  A frame never lowers the speed (the score is never negative). *)
Theorem update_speed_nondecreasing td s :
  0 <= score s -> (speed s <= speed (update td s))%Q.
Proof.
  intros Hs. unfold update.
  destruct (negb (gameStarted s) || gameOver s || isPaused s)%bool;
    [apply Qle_refl|].
  assert (Hz : 0 <= LEVEL_SPEED_BONUS * (score s / SCORE_PER_LEVEL + 1 - 1)).
  { unfold LEVEL_SPEED_BONUS, SCORE_PER_LEVEL.
    apply Z.mul_nonneg_nonneg; [lia|].
    rewrite Z.add_simpl_r. apply Z.div_pos; lia. }
  rewrite Zle_Qle in Hz.
  unfold SPEED_INCREMENT.
  change (inject_Z 0) with 0%Q in Hz.
  split_ifs; cbn -[Z.mul Z.add Z.sub Z.div inject_Z Qplus]; lra.
Qed.

Lemma update_speed_nondecreasing_witness :
  0 <= score Samples.running0 /\
  (speed Samples.running0 <= speed (update true Samples.running0))%Q.
Proof.
  split; [vm_compute; discriminate|].
  apply update_speed_nondecreasing. vm_compute. discriminate.
Defined.

(** C4.  With a revive token, hitting an obstacle halts the game and
    changes neither the score, the high score nor the store (no
    leaderboard entry); the revive action then consumes the token, puts the
    player at (PLAYER_START_X, 200) and resumes physics and spawning, and a
    second revive action does nothing. *)
Theorem hit_with_revive_then_revive s st today :
  revive s = true ->
  snd (hitObstacle today (s, st)) = st /\
  score (fst (hitObstacle today (s, st))) = score s /\
  highScore (fst (hitObstacle today (s, st))) = highScore s /\
  gameOver (fst (hitObstacle today (s, st))) = true /\
  physicsPaused (fst (hitObstacle today (s, st))) = true /\
  timerPaused (fst (hitObstacle today (s, st))) = true /\
  revive (fst (hitObstacle today (s, st))) = true /\
  let s2 := useRevive (fst (hitObstacle today (s, st))) in
  revive s2 = false /\ gameOver s2 = false /\
  playerX s2 = PLAYER_START_X /\ playerY s2 = 200 /\
  physicsPaused s2 = false /\ timerPaused s2 = false /\
  score s2 = score s /\ highScore s2 = highScore s /\
  useRevive s2 = s2.
Proof.
  intros Hr. unfold hitObstacle. rewrite Hr. cbn.
  unfold useRevive. cbn. rewrite Hr. cbn.
  repeat split; reflexivity.
Qed.

Lemma hit_with_revive_then_revive_witness :
  revive Samples.revive0 = true /\
  playerY (useRevive (fst (hitObstacle "1/2/2026"%string
                             (Samples.revive0, Samples.store0)))) = 200.
Proof.
  split; [reflexivity|].
  destruct (hit_with_revive_then_revive Samples.revive0 Samples.store0
              "1/2/2026"%string eq_refl)
    as [_ [_ [_ [_ [_ [_ [_ [_ [_ [_ [H _]]]]]]]]]]].
  exact H.
Defined.

Ltac scene_simpl :=
  cbn -[Z.mul Z.add Z.sub Z.div Z.max Z.ltb inject_Z Qplus].

(** C2 (corrected).  On a frame of a running game the level is recomputed
    as [score / SCORE_PER_LEVEL + 1].  When it exceeds the level, [levelUp]
    sets the level, adds [LEVEL_SPEED_BONUS * (newLevel - 1)] to the speed,
    sets the spawn delay (and the timer delay) to
    [max MIN_SPAWN_DELAY (INITIAL_SPAWN_DELAY - (newLevel - 1) * SPAWN_DELAY_REDUCTION)]
    and clears the per-level revive flag; the next frame, the score being
    the same, does not level up again.  Otherwise the level, the delays and
    the flag are unchanged and the speed only gains [SPEED_INCREMENT]. *)
Theorem update_level_up td s :
  gameStarted s = true -> gameOver s = false -> isPaused s = false ->
  let nl := score s / SCORE_PER_LEVEL + 1 in
  (level s < nl ->
     level (update td s) = nl /\
     speed (update td s) =
       (speed s + SPEED_INCREMENT + inject_Z (LEVEL_SPEED_BONUS * (nl - 1)))%Q /\
     spawnDelay (update td s) =
       Z.max MIN_SPAWN_DELAY (INITIAL_SPAWN_DELAY - (nl - 1) * SPAWN_DELAY_REDUCTION) /\
     timerDelay (update td s) = spawnDelay (update td s) /\
     reviveGivenThisLevel (update td s) = false /\
     (forall td', level (update td' (update td s)) = nl /\
        spawnDelay (update td' (update td s)) = spawnDelay (update td s) /\
        speed (update td' (update td s)) = (speed (update td s) + SPEED_INCREMENT)%Q)) /\
  (nl <= level s ->
     level (update td s) = level s /\
     spawnDelay (update td s) = spawnDelay s /\
     timerDelay (update td s) = timerDelay s /\
     reviveGivenThisLevel (update td s) = reviveGivenThisLevel s /\
     speed (update td s) = (speed s + SPEED_INCREMENT)%Q).
Proof.
  intros Hg Ho Hp nl.
  assert (Hrun : (negb (gameStarted s) || gameOver s || isPaused s)%bool = false)
    by (rewrite Hg, Ho, Hp; reflexivity).
  split.
  - intros Hlt.
    assert (Hb : (level s <? nl) = true) by (apply Z.ltb_lt; exact Hlt).
    assert (E : update td s =
                (if td then set_canDoubleJump true else fun x => x)
                  (levelUp nl (set_speed (speed s + SPEED_INCREMENT)%Q s))).
    { unfold update. rewrite Hrun. scene_simpl. fold nl. rewrite Hb.
      destruct td; reflexivity. }
    rewrite E.
    assert (Hb' : (nl <? nl) = false) by (apply Z.ltb_ge; lia).
    destruct td; scene_simpl; (split; [reflexivity|]);
      (split; [reflexivity|]); (split; [reflexivity|]);
      (split; [reflexivity|]); (split; [reflexivity|]);
      intros td'; unfold update; scene_simpl; rewrite Hg, Ho, Hp; scene_simpl;
      fold nl; rewrite Hb'; destruct td'; scene_simpl; repeat split.
  - intros Hle.
    assert (Hb : (level s <? nl) = false) by (apply Z.ltb_ge; exact Hle).
    unfold update. rewrite Hrun. scene_simpl. fold nl. rewrite Hb.
    destruct td; scene_simpl; repeat split.
Qed.

Lemma update_level_up_witness :
  level (update false Samples.sceneA) = 2.
Proof.
  refine (proj1 (proj1 (update_level_up false Samples.sceneA
                          eq_refl eq_refl eq_refl) _)).
  vm_compute. reflexivity.
Defined.

(** C2 counterexample: the level-up bonus is not proportional to the new
    level.  Going from level 1 to 2 adds 20 to the speed and from level 2
    to 3 adds 40, and no [k] gives [k * 2 = 20] and [k * 3 = 40]. *)
Lemma level_bonus_not_proportional :
  ~ (exists k : Q,
       (speed (update false Samples.sceneA) ==
          speed Samples.sceneA + SPEED_INCREMENT
          + k * inject_Z (level (update false Samples.sceneA)))%Q /\
       (speed (update false Samples.sceneB) ==
          speed Samples.sceneB + SPEED_INCREMENT
          + k * inject_Z (level (update false Samples.sceneB)))%Q).
Proof.
  intros [k [HA HB]].
  assert (LA : level (update false Samples.sceneA) = 2) by reflexivity.
  assert (LB : level (update false Samples.sceneB) = 3) by reflexivity.
  rewrite LA in HA. rewrite LB in HB.
  assert (SA : (speed Samples.sceneA == 150)%Q) by reflexivity.
  assert (SA' : (speed (update false Samples.sceneA) == 150 + (5 # 1000) + 20)%Q)
    by reflexivity.
  assert (SB : (speed Samples.sceneB == 150 + (5 # 1000) + 20)%Q) by reflexivity.
  assert (SB' : (speed (update false Samples.sceneB) ==
                 150 + (5 # 1000) + 20 + (5 # 1000) + 40)%Q) by reflexivity.
  change (inject_Z 2) with (2 # 1)%Q in HA.
  change (inject_Z 3) with (3 # 1)%Q in HB.
  unfold SPEED_INCREMENT in HA, HB.
  lra.
Qed.

(** C3 (corrected).  Without a revive token, hitting an obstacle halts the
    game.  A positive score is passed to [addToLeaderboard] with the level,
    the stored username (['Anonymous'] when empty) and the date; when the
    old leaderboard has fewer than 100 entries the stored leaderboard is the
    old one plus exactly that entry (up to order).  A score of zero leaves
    the leaderboard as it was.  The stored and the scene's high score become
    the score exactly when it exceeds the scene's high score. *)
Theorem hit_without_revive today s st :
  revive s = false ->
  gameOver (fst (hitObstacle today (s, st))) = true /\
  physicsPaused (fst (hitObstacle today (s, st))) = true /\
  timerPaused (fst (hitObstacle today (s, st))) = true /\
  score (fst (hitObstacle today (s, st))) = score s /\
  (0 < score s ->
     st_leaderboard (snd (hitObstacle today (s, st))) =
       ScoreManager.addToLeaderboard (st_leaderboard st) (score s) (level s)
         (Some (getUsername st)) today /\
     ((List.length (st_leaderboard st) < 100)%nat ->
        Permutation (st_leaderboard (snd (hitObstacle today (s, st))))
          (st_leaderboard st ++
             [ScoreManager.mkEntry (score s) today (level s)
                (ScoreManager.or_anonymous (Some (getUsername st)))]))) /\
  (score s <= 0 -> st_leaderboard (snd (hitObstacle today (s, st))) = st_leaderboard st) /\
  st_highScore (snd (hitObstacle today (s, st))) =
    (if highScore s <? score s then score s else st_highScore st) /\
  highScore (fst (hitObstacle today (s, st))) =
    (if highScore s <? score s then score s else highScore s).
Proof.
  intros Hr.
  unfold hitObstacle. rewrite Hr.
  unfold handleNormalGameOver, saveScoreToLeaderboard, halt.
  scene_simpl.
  destruct (Z.leb_spec (score s) 0) as [H0|H0];
    destruct (highScore s <? score s); scene_simpl.
  all: split; [reflexivity|]; split; [reflexivity|].
  all: split; [reflexivity|]; split; [reflexivity|].
  all: split; [intros Hpos|split; [intros Hz|split; reflexivity]].
  all: try (exfalso; lia).
  all: try reflexivity.
  all: split; [reflexivity|].
  all: intros Hlen;
       exact (LeaderboardProofs.addToLeaderboard_perm_small _ _ _ _ _ Hlen).
Qed.


Lemma hit_without_revive_witness :
  revive (fst Samples.world40) = false /\
  0 < score (fst Samples.world40) /\
  (List.length (st_leaderboard (snd Samples.world40)) < 100)%nat /\
  st_leaderboard
    (snd (hitObstacle "1/2/2026"%string (fst Samples.world40, snd Samples.world40))) =
    ScoreManager.addToLeaderboard (st_leaderboard (snd Samples.world40))
      (score (fst Samples.world40)) (level (fst Samples.world40))
      (Some (getUsername (snd Samples.world40))) "1/2/2026"%string /\
  Permutation
    (st_leaderboard
       (snd (hitObstacle "1/2/2026"%string (fst Samples.world40, snd Samples.world40))))
    (st_leaderboard (snd Samples.world40) ++
       [ScoreManager.mkEntry (score (fst Samples.world40)) "1/2/2026"%string
          (level (fst Samples.world40))
          (ScoreManager.or_anonymous (Some (getUsername (snd Samples.world40))))]) /\
  st_leaderboard (snd (hitObstacle "1/2/2026"%string (Samples.running0, Samples.store0)))
    = st_leaderboard Samples.store0.
Proof.
  assert (Hr : revive (fst Samples.world40) = false) by (vm_compute; reflexivity).
  assert (Hp : 0 < score (fst Samples.world40)) by (vm_compute; reflexivity).
  assert (Hl : (List.length (st_leaderboard (snd Samples.world40)) < 100)%nat)
    by (vm_compute; lia).
  destruct (hit_without_revive "1/2/2026"%string (fst Samples.world40)
              (snd Samples.world40) Hr) as [_ [_ [_ [_ [Hpos _]]]]].
  destruct (Hpos Hp) as [Hadd Hperm].
  split; [exact Hr|]. split; [exact Hp|]. split; [exact Hl|].
  split; [exact Hadd|]. split; [exact (Hperm Hl)|].
  destruct (hit_without_revive "1/2/2026"%string Samples.running0 Samples.store0 eq_refl)
    as [_ [_ [_ [_ [_ [H _]]]]]].
  apply H. vm_compute. discriminate.
Defined.

(** C3 counterexample: with score 50 on a leaderboard of a hundred scores
    of 1000, the game over adds no entry: the stored leaderboard is the old
    one. *)
Lemma hit_full_leaderboard_no_entry :
  score (fst Samples.world50) = 50 /\
  revive (fst Samples.world50) = false /\
  st_leaderboard (snd (hitObstacle "1/2/2026"%string Samples.world50)) =
    Samples.hundred_entries.
Proof. vm_compute. repeat split. Qed.

(** How one input acts on the per-level revive flag: it keeps the flag and
    creates no revive coin, or it raises the level and clears the flag, or
    the flag was unset and a revive coin is created and the flag set. *)
Lemma step_revive_flag ev w :
  (reviveGivenThisLevel (fst (fst (step ev w))) = reviveGivenThisLevel (fst w) /\
   snd (step ev w) <> Some CoinRevive) \/
  (level (fst w) < level (fst (fst (step ev w))) /\
   reviveGivenThisLevel (fst (fst (step ev w))) = false /\
   snd (step ev w) = None) \/
  (reviveGivenThisLevel (fst w) = false /\
   reviveGivenThisLevel (fst (fst (step ev w))) = true /\
   snd (step ev w) = Some CoinRevive).
Proof.
  destruct w as [s st].
  destruct ev;
    unfold step, update, levelUp, spawnCoin, collectCoin, hitObstacle,
      handleReviveGameOver, handleNormalGameOver, saveScoreToLeaderboard, halt,
      startGame, restartGame, performRestart, performStartGame, useRevive,
      togglePause, jump, grantRevivePowerUp;
    scene_simpl;
    repeat match goal with
           | |- context [if ?b then _ else _] =>
               let E := fresh "E" in destruct b eqn:E
           end;
    scene_simpl;
    first
      [ left; split; [reflexivity|discriminate]
      | right; left; split; [apply Z.ltb_lt; assumption|split; reflexivity]
      | right; right; split; [|split; reflexivity];
        match goal with
        | H : (negb (reviveGivenThisLevel _) && _)%bool = true |- _ =>
            apply andb_prop in H as [H _]; apply negb_true_iff in H; exact H
        end ].
Qed.

Lemma run_cons ev evs w :
  run (ev :: evs) w =
  (fst (run evs (fst (step ev w))),
   match snd (step ev w) with
   | Some k => k :: snd (run evs (fst (step ev w)))
   | None => snd (run evs (fst (step ev w)))
   end).
Proof.
  simpl. destruct (step ev w) as [w1 o]. simpl.
  destruct (run evs w1) as [w2 ks]. reflexivity.
Qed.

(** C6.  The revive token is one boolean: granting it twice is granting it
    once.  [spawnCoin] creates a revive coin only when the per-level flag is
    unset and sets it at once; no input clears the flag without raising
    the level; hence along any sequence of inputs that never raises the
    level at most one revive coin is created (none if the flag is set at
    the start). *)
Theorem revive_at_most_once_per_level :
  (forall s, grantRevivePowerUp (grantRevivePowerUp s) = grantRevivePowerUp s) /\
  (forall r s, snd (spawnCoin r s) = CoinRevive ->
     reviveGivenThisLevel s = false /\
     reviveGivenThisLevel (fst (spawnCoin r s)) = true) /\
  (forall ev w, reviveGivenThisLevel (fst w) = true ->
     reviveGivenThisLevel (fst (fst (step ev w))) = false ->
     level (fst w) < level (fst (fst (step ev w)))) /\
  (forall evs w, level_rises evs w = false ->
     (count_revive (snd (run evs w)) <=
        (if reviveGivenThisLevel (fst w) then 0 else 1))%nat).
Proof.
  split; [intros s; reflexivity|].
  split.
  { intros r s. unfold spawnCoin.
    destruct (negb (reviveGivenThisLevel s) && (r <=? REVIVE_CHANCE))%bool eqn:E;
      simpl; [|discriminate].
    intros _. apply andb_prop in E as [E _]. apply negb_true_iff in E.
    split; [exact E|reflexivity]. }
  split.
  { intros ev w H1 H2.
    destruct (step_revive_flag ev w) as [[Hf _]|[[Hl _]|[Hf _]]].
    - congruence.
    - exact Hl.
    - congruence. }
  intros evs. induction evs as [|ev evs IH]; intros w Hr.
  - unfold count_revive. simpl. destruct (reviveGivenThisLevel (fst w)); lia.
  - simpl in Hr. apply orb_false_iff in Hr as [Hlt Hrest].
    specialize (IH _ Hrest).
    rewrite run_cons. unfold count_revive in *.
    destruct (step_revive_flag ev w) as [[Hf Hs]|[[Hl _]|[Hf0 [Hf1 Hs]]]].
    + rewrite Hf in IH.
      destruct (snd (step ev w)) as [[|]|]; [exact IH|contradiction|exact IH].
    + apply Z.ltb_lt in Hl. congruence.
    + rewrite Hf1 in IH. rewrite Hs, Hf0. simpl. lia.
Qed.

Lemma revive_at_most_once_per_level_witness :
  level_rises Samples.spawn_events (Samples.running0, Samples.store0) = false /\
  (count_revive (snd (run Samples.spawn_events (Samples.running0, Samples.store0)))
     <= 1)%nat.
Proof.
  split; [reflexivity|].
  exact (proj2 (proj2 (proj2 revive_at_most_once_per_level))
           Samples.spawn_events (Samples.running0, Samples.store0) eq_refl).
Defined.

End GameProofs.

(** ** Numbers written with [toString] and read back with [parseInt] *)
Module NumberProofs.
Import JS.

Lemma digit_value_char d : 0 <= d < 10 -> digit_value (digit_char d) = Some d.
Proof.
  intros Hd.
  assert (d = 0 \/ d = 1 \/ d = 2 \/ d = 3 \/ d = 4 \/ d = 5 \/ d = 6 \/
          d = 7 \/ d = 8 \/ d = 9) as Hc by lia.
  repeat destruct Hc as [Hc|Hc]; subst; reflexivity.
Qed.

Lemma digits_digit_char a d t :
  0 <= d < 10 ->
  digits 10 (Some a) (String (digit_char d) t) = digits 10 (Some (a * 10 + d)) t.
Proof.
  intros Hd. simpl. rewrite (digit_value_char d Hd).
  destruct (Z.ltb_spec d 10); [reflexivity|lia].
Qed.

Lemma render_digits f n acc :
  0 <= n < 10 ^ Z.of_nat f ->
  digits 10 (Some 0) (render f n acc) = digits 10 (Some n) acc.
Proof.
  revert n acc; induction f as [|f IH]; intros n acc Hn.
  - simpl in Hn. assert (n = 0) by lia. subst. reflexivity.
  - rewrite Nat2Z.inj_succ, Z.pow_succ_r in Hn by lia.
    assert (Hr : 0 <= n mod 10 < 10) by (apply Z.mod_pos_bound; lia).
    assert (Hq : 0 <= n / 10 < 10 ^ Z.of_nat f)
      by (split; [apply Z.div_pos; lia | apply Z.div_lt_upper_bound; lia]).
    pose proof (Z.div_mod n 10 ltac:(lia)) as Hdm.
    simpl render. destruct (Z.eqb_spec (n / 10) 0) as [H0|H0].
    + rewrite digits_digit_char by exact Hr. f_equal. f_equal. lia.
    + rewrite IH by exact Hq. rewrite digits_digit_char by exact Hr.
      f_equal. f_equal. lia.
Qed.

Lemma render_cons f n acc : exists c t, render (S f) n acc = String c t.
Proof.
  revert n acc; induction f as [|f IH]; intros n acc; simpl.
  - destruct (n / 10 =? 0); eauto.
  - destruct (n / 10 =? 0); [eauto|].
    apply IH.
Qed.

Lemma render_all_digits f n acc :
  0 <= n ->
  Forall (fun c => exists d, digit_value c = Some d /\ 0 <= d < 10)
         (list_ascii_of_string acc) ->
  Forall (fun c => exists d, digit_value c = Some d /\ 0 <= d < 10)
         (list_ascii_of_string (render f n acc)).
Proof.
  revert n acc; induction f as [|f IH]; intros n acc Hn Hacc; simpl; [exact Hacc|].
  assert (Hr : 0 <= n mod 10 < 10) by (apply Z.mod_pos_bound; lia).
  assert (Hc : Forall (fun c => exists d, digit_value c = Some d /\ 0 <= d < 10)
                 (list_ascii_of_string (String (digit_char (n mod 10)) acc))).
  { simpl. constructor; [|exact Hacc].
    exists (n mod 10). split; [apply digit_value_char|]; exact Hr. }
  destruct (n / 10 =? 0); [exact Hc|].
  apply IH; [apply Z.div_pos; lia|exact Hc].
Qed.

Lemma digit_not_x c :
  (exists d, digit_value c = Some d /\ 0 <= d < 10) ->
  Ascii.eqb c "x"%char = false /\ Ascii.eqb c "X"%char = false.
Proof.
  intros [d [Hd Hr]].
  destruct c as [[] [] [] [] [] [] [] []]; vm_compute in Hd;
    try discriminate; injection Hd as <-; try lia; split; reflexivity.
Qed.

Lemma option_map_mul_1 (v : option Z) : option_map (Z.mul 1) v = v.
Proof. destruct v as [z|]; [cbn -[Z.mul]; rewrite Z.mul_1_l|]; reflexivity. Qed.

Lemma parseInt_digit_string c t :
  (exists d, digit_value c = Some d /\ 0 <= d < 10) ->
  Forall (fun c => exists d, digit_value c = Some d /\ 0 <= d < 10)
         (list_ascii_of_string t) ->
  parseInt (String c t) = digits 10 (Some 0) (String c t) /\
  parseInt (String "-"%char (String c t)) =
    option_map (Z.mul (-1)) (digits 10 (Some 0) (String c t)).
Proof.
  intros Hc Ht.
  assert (Hx : forall x t', t = String x t' ->
                 Ascii.eqb x "x"%char = false /\ Ascii.eqb x "X"%char = false).
  { intros x t' ->. simpl in Ht. inversion Ht; subst. apply digit_not_x; assumption. }
  destruct Hc as [d [Hd Hr]].
  destruct c as [[] [] [] [] [] [] [] []]; vm_compute in Hd;
    try discriminate; injection Hd as <-; try lia;
    unfold parseInt; simpl;
    try (destruct t as [|x t']; [|destruct (Hx x t' eq_refl) as [-> ->]]);
    simpl; rewrite ?option_map_mul_1; split; reflexivity.
Qed.

Lemma fuel_bound n :
  0 <= n -> n < 10 ^ Z.of_nat (S (Z.to_nat (Z.log2 n))).
Proof.
  intros Hn.
  rewrite Nat2Z.inj_succ, Z2Nat.id by apply Z.log2_nonneg.
  destruct (Z.eq_dec n 0) as [->|Hn0]; [reflexivity|].
  destruct (Z.log2_spec n ltac:(lia)) as [_ H2].
  eapply Z.lt_le_trans; [exact H2|].
  apply Z.pow_le_mono_l. lia.
Qed.

(** [parseInt] reads back what [toString] writes, for every integer. *)
Lemma parseInt_int_toString z : parseInt (int_toString z) = Some z.
Proof.
  assert (Hnat : forall n, 0 <= n ->
            exists c t, nat_toString n = String c t /\
              parseInt (String c t) = Some n /\
              parseInt (String "-"%char (String c t)) = Some (- n)).
  { intros n Hn. unfold nat_toString.
    destruct (render_cons (Z.to_nat (Z.log2 n)) n EmptyString) as [c [t Hct]].
    exists c, t. split; [exact Hct|].
    pose proof (render_all_digits (S (Z.to_nat (Z.log2 n))) n EmptyString Hn
                  (Forall_nil _)) as Hall.
    rewrite Hct in Hall. simpl in Hall. inversion Hall as [|? ? Hc Ht]; subst.
    pose proof (render_digits _ n EmptyString (conj Hn (fuel_bound n Hn))) as Hv.
    rewrite Hct in Hv. change (digits 10 (Some n) EmptyString) with (Some n) in Hv.
    destruct (parseInt_digit_string c t Hc Ht) as [P1 P2].
    rewrite P1, P2, Hv. split; [reflexivity|simpl; f_equal; lia]. }
  unfold int_toString. destruct (Z.ltb_spec z 0) as [Hz|Hz].
  - destruct (Hnat (- z) ltac:(lia)) as [c [t [E [_ P]]]].
    rewrite E, P. f_equal. lia.
  - destruct (Hnat z Hz) as [c [t [E [P _]]]]. rewrite E. exact P.
Qed.

Lemma parseInt_or_0_toString z :
  ScoreManager.parseInt_or_0 (Some (int_toString z)) = z.
Proof.
  unfold ScoreManager.parseInt_or_0. simpl. rewrite parseInt_int_toString.
  destruct (Z.eqb_spec z 0); congruence.
Qed.

End NumberProofs.

(** ** Values kept in localStorage by ScoreManager *)
Module StorageProofs.
Import JS ScoreManager NumberProofs.

(** [getCurrentScore()] and [getHighScore()] read back the score written by
    [setCurrentScore] and [setHighScore], for every safe integer score,
    negative ones included. *)
Theorem score_item_roundtrip (z : Z) (Hsafe : Z.abs z <= MAX_SAFE_INTEGER) :
  getCurrentScore (setCurrentScore z) = z /\ getHighScore (setHighScore z) = z.
Proof.
  split; apply parseInt_or_0_toString.
Qed.

Lemma score_item_roundtrip_witness :
  Z.abs (-305) <= MAX_SAFE_INTEGER /\
  getCurrentScore (setCurrentScore (-305)) = -305 /\
  getHighScore (setHighScore (-305)) = -305.
Proof.
  split; [unfold MAX_SAFE_INTEGER; lia|].
  apply (score_item_roundtrip (-305)). unfold MAX_SAFE_INTEGER; lia.
Defined.

(** [incrementGamePlayCount()] and [incrementAdViewCount()] add exactly one
    to the count their getters read, whatever the stored item (missing,
    non-numeric or negative), as long as the result is a safe integer. *)
Theorem increment_counts (v : item)
  (Hsafe : Z.abs (parseInt_or_0 v + 1) <= MAX_SAFE_INTEGER) :
  getGamePlayCount (incrementGamePlayCount v) = getGamePlayCount v + 1 /\
  getAdViewCount (incrementAdViewCount v) = getAdViewCount v + 1.
Proof.
  split; apply parseInt_or_0_toString.
Qed.

Lemma increment_counts_witness :
  Z.abs (parseInt_or_0 (Some "abc"%string) + 1) <= MAX_SAFE_INTEGER /\
  getGamePlayCount (incrementGamePlayCount (Some "abc"%string)) =
    getGamePlayCount (Some "abc"%string) + 1 /\
  getAdViewCount (incrementAdViewCount (Some "abc"%string)) =
    getAdViewCount (Some "abc"%string) + 1.
Proof.
  split; [vm_compute; discriminate|].
  apply (increment_counts (Some "abc"%string)). vm_compute. discriminate.
Defined.

(** [updateHighScore(score)] reports a new record exactly when the score
    beats the stored high score, and the stored high score becomes the
    larger of the two. *)
Theorem updateHighScore_max (s : Z) (v : item)
  (Hsafe : Z.abs s <= MAX_SAFE_INTEGER) :
  snd (updateHighScore s v) = (getHighScore v <? s) /\
  getHighScore (fst (updateHighScore s v)) = Z.max (getHighScore v) s.
Proof.
  unfold updateHighScore. destruct (Z.ltb_spec (getHighScore v) s) as [H|H]; cbn [fst snd].
  - split; [reflexivity|]. unfold getHighScore at 1, setHighScore.
    rewrite parseInt_or_0_toString. lia.
  - split; [reflexivity|lia].
Qed.

Lemma updateHighScore_max_witness :
  Z.abs 250 <= MAX_SAFE_INTEGER /\
  snd (updateHighScore 250 (Some "120"%string)) =
    (getHighScore (Some "120"%string) <? 250) /\
  getHighScore (fst (updateHighScore 250 (Some "120"%string))) =
    Z.max (getHighScore (Some "120"%string)) 250.
Proof.
  split; [unfold MAX_SAFE_INTEGER; lia|].
  apply (updateHighScore_max 250 (Some "120"%string)). unfold MAX_SAFE_INTEGER; lia.
Defined.

End StorageProofs.

(** ** Settings and the username *)
Module SettingsProofs.
Import JS.
Local Open Scope string_scope.

Lemma trim_start_head s c t : trim_start s = String c t -> is_ws c = false.
Proof.
  induction s as [|c0 s IH]; simpl; [discriminate|].
  destruct (is_ws c0) eqn:E; [exact IH|]. intros H. injection H as -> _. exact E.
Qed.

Lemma trim_end_idem s : trim_end (trim_end s) = trim_end s.
Proof.
  induction s as [|c t IH]; [reflexivity|]. simpl.
  destruct (String.eqb (trim_end t) "" && is_ws c)%bool eqn:E; [reflexivity|].
  simpl. rewrite IH, E. reflexivity.
Qed.

Lemma trim_start_trim_end x :
  (forall c t, x = String c t -> is_ws c = false) ->
  trim_start (trim_end x) = trim_end x.
Proof.
  destruct x as [|c t]; [reflexivity|]. intros H. specialize (H c t eq_refl).
  simpl. rewrite H, Bool.andb_false_r. simpl. rewrite H. reflexivity.
Qed.

(** [trim] removes all surrounding white space at once. *)
Lemma trim_idem s : trim (trim s) = trim s.
Proof.
  unfold trim. rewrite trim_start_trim_end by apply trim_start_head.
  apply trim_end_idem.
Qed.

Lemma trim_start_sub s :
  (String.length (trim_start s) <= String.length s)%nat /\
  (SettingsManager.has_invalid_char s = false ->
   SettingsManager.has_invalid_char (trim_start s) = false).
Proof.
  induction s as [|c t IH]; simpl; [split; auto|].
  destruct (is_ws c); simpl.
  - destruct IH as [IH1 IH2]. split; [lia|].
    intros H. apply IH2. destruct (SettingsManager.invalid_char c); [discriminate|exact H].
  - split; auto.
Qed.

Lemma trim_end_sub s :
  (String.length (trim_end s) <= String.length s)%nat /\
  (SettingsManager.has_invalid_char s = false ->
   SettingsManager.has_invalid_char (trim_end s) = false).
Proof.
  induction s as [|c t IH]; simpl; [split; auto|].
  destruct IH as [IH1 IH2].
  destruct (String.eqb (trim_end t) "" && is_ws c)%bool; simpl; [split; [lia|auto]|].
  split; [lia|]. intros H.
  destruct (SettingsManager.invalid_char c); [discriminate|simpl; apply IH2; exact H].
Qed.

Lemma rename_same (o : string) (lb : list ScoreManager.entry) :
  map (ScoreManager.rename_entry o o) lb = lb.
Proof.
  induction lb as [|e lb IH]; [reflexivity|]. simpl. rewrite IH. f_equal.
  unfold ScoreManager.rename_entry.
  destruct (String.eqb_spec (ScoreManager.username e) o) as [He|]; [|reflexivity].
  rewrite <- He. destruct e; reflexivity.
Qed.

(** A username that [validateUsername] accepts is stored by [setUsername]
    (the flag is true), trimmed, at most 20 characters long and free of the
    rejected characters; the length check is made before trimming, so
    the stored name can be shorter than 2 characters. *)
Theorem validated_username_stored (u : string) (v : item)
  (Hvalid : fst (SettingsManager.validateUsername u) = true) :
  SettingsManager.setUsername u v = (Some (trim u), true) /\
  (1 <= String.length (trim u) <= 20)%nat /\
  SettingsManager.has_invalid_char (trim u) = false.
Proof.
  unfold SettingsManager.validateUsername in Hvalid.
  destruct (String.eqb (trim u) "") eqn:E0; [discriminate|].
  destruct (String.length u <? 2)%nat eqn:E1; [discriminate|].
  destruct (20 <? String.length u)%nat eqn:E2; [discriminate|].
  destruct (SettingsManager.has_invalid_char u) eqn:E3; [discriminate|].
  apply Nat.ltb_ge in E2.
  destruct (trim_start_sub u) as [L1 I1]. destruct (trim_end_sub (trim_start u)) as [L2 I2].
  unfold SettingsManager.setUsername. rewrite E0. split; [reflexivity|].
  unfold trim. split; [|auto].
  split; [|lia].
  destruct (trim_end (trim_start u)) eqn:Et; [unfold trim in E0; rewrite Et in E0; discriminate|].
  simpl. lia.
Qed.

Lemma validated_username_stored_witness :
  fst (SettingsManager.validateUsername " a") = true /\
  SettingsManager.setUsername " a" None = (Some (trim " a"), true) /\
  (1 <= String.length (trim " a") <= 20)%nat /\
  SettingsManager.has_invalid_char (trim " a") = false.
Proof.
  split; [vm_compute; reflexivity|].
  apply (validated_username_stored " a" None). vm_compute. reflexivity.
Defined.

(** Saving a username from the settings scene stores it trimmed and renames
    the leaderboard entries of the previous username, unless there was
    none; a blank input changes nothing. *)
Theorem saveUsername_effect (u : string) (v : item) (lb : list ScoreManager.entry) :
  SettingsScene.saveUsername u v lb =
  if String.eqb (trim u) "" then (v, lb)
  else (Some (trim u),
        let old := SettingsManager.getUsername v in
        if String.eqb old "" then lb
        else ScoreManager.updateLeaderboardUsernames lb old (trim u)).
Proof.
  unfold SettingsScene.saveUsername. destruct (String.eqb (trim u) "") eqn:E; [reflexivity|].
  cbn [negb]. unfold SettingsManager.setUsername. rewrite trim_idem, E. cbn [negb fst].
  f_equal. unfold SettingsScene.updateLeaderboardUsernames.
  destruct (String.eqb (SettingsManager.getUsername v) (trim u)) eqn:Eq; cbn [negb].
  - apply String.eqb_eq in Eq. rewrite Eq, E.
    unfold ScoreManager.updateLeaderboardUsernames.
    destruct (existsb _ lb); [symmetry; apply rename_same|reflexivity].
  - reflexivity.
Qed.

(** The ad check of [startGame()] and [getShowAds()], used by
    [restartGame()], agree on the two values [setShowAds] writes and
    disagree on every other stored item, a missing one included. *)
Theorem showAds_checks_agree (v : item) :
  SettingsManager.getShowAds v = GameScene.startGame_adsEnabled v <->
  v = Some "true" \/ v = Some "false".
Proof.
  destruct v as [s|]; simpl.
  - destruct (String.eqb_spec s "false") as [->|Hf]; simpl.
    + split; auto.
    + destruct (String.eqb_spec s "true") as [->|Ht].
      * split; auto.
      * split; [discriminate|intros [H|H]; injection H; intros; contradiction].
  - split; [discriminate|intros [H|H]; discriminate].
Qed.

(** [getShowAds()] reads back what [setShowAds(show)] writes. *)
Theorem showAds_roundtrip (b : bool) :
  SettingsManager.getShowAds (SettingsManager.setShowAds b) = b /\
  GameScene.startGame_adsEnabled (SettingsManager.setShowAds b) = b.
Proof. destruct b; split; reflexivity. Qed.

(** Starting from a valid stored gender and orientation (a missing item
    reads as the default), any sequence of [setPlayerGender] and
    [setPreferredOrientation] calls, with any arguments, keeps the values
    read back among the accepted ones. *)
Theorem settings_stay_valid (gs os : list string) (vg vo : item)
  (Hg : In (SettingsManager.getPlayerGender vg) ["male"; "female"])
  (Ho : In (SettingsManager.getPreferredOrientation vo) ["portrait"; "landscape"]) :
  In (SettingsManager.getPlayerGender
        (fold_left (fun v g => fst (SettingsManager.setPlayerGender g v)) gs vg))
     ["male"; "female"] /\
  In (SettingsManager.getPreferredOrientation
        (fold_left (fun v o => fst (SettingsManager.setPreferredOrientation o v)) os vo))
     ["portrait"; "landscape"].
Proof.
  split.
  - revert vg Hg; induction gs as [|g gs IH]; intros vg Hg; [exact Hg|].
    apply IH. unfold SettingsManager.setPlayerGender.
    destruct (String.eqb_spec g "male") as [->|]; [simpl; auto|].
    destruct (String.eqb_spec g "female") as [->|]; [simpl; auto|exact Hg].
  - revert vo Ho; induction os as [|o os IH]; intros vo Ho; [exact Ho|].
    apply IH. unfold SettingsManager.setPreferredOrientation.
    destruct (String.eqb_spec o "portrait") as [->|]; [simpl; auto|].
    destruct (String.eqb_spec o "landscape") as [->|]; [simpl; auto|exact Ho].
Qed.

Lemma settings_stay_valid_witness :
  In (SettingsManager.getPlayerGender None) ["male"; "female"] /\
  In (SettingsManager.getPreferredOrientation None) ["portrait"; "landscape"] /\
  In (SettingsManager.getPlayerGender
        (fold_left (fun v g => fst (SettingsManager.setPlayerGender g v))
           ["female"; "robot"] None)) ["male"; "female"] /\
  In (SettingsManager.getPreferredOrientation
        (fold_left (fun v o => fst (SettingsManager.setPreferredOrientation o v))
           ["upside-down"] None)) ["portrait"; "landscape"].
Proof.
  split; [simpl; auto|]. split; [simpl; auto|].
  apply (settings_stay_valid ["female"; "robot"] ["upside-down"] None None);
    simpl; auto.
Defined.

End SettingsProofs.

(** ** Leaderboard pages *)
Module PaginationProofs.
Import ScoreManager.

Lemma page_entries_eq lb p per :
  entries (getLeaderboardPage lb p per) =
  firstn (Pos.to_nat per) (skipn (p * Pos.to_nat per) lb).
Proof.
  unfold getLeaderboardPage; cbn [entries]. f_equal. lia.
Qed.

Lemma firstn_add_split {A} (a b : nat) (l : list A) :
  firstn (a + b) l = firstn a l ++ firstn b (skipn a l).
Proof.
  revert l; induction a as [|a IH]; intros l; [reflexivity|].
  destruct l as [|x l]; simpl; [rewrite firstn_nil; reflexivity|].
  f_equal. apply IH.
Qed.

Lemma concat_pages (lb : list entry) (n k s : nat) :
  List.concat (map (fun p => firstn n (skipn (p * n) lb)) (seq s k)) =
  firstn (k * n) (skipn (s * n) lb).
Proof.
  revert s; induction k as [|k IH]; intros s; [reflexivity|].
  cbn [seq map List.concat]. rewrite IH.
  replace (S s * n)%nat with (n + s * n)%nat by lia.
  rewrite <- skipn_skipn.
  replace (S k * n)%nat with (n + k * n)%nat by lia.
  symmetry. apply firstn_add_split.
Qed.

Lemma totalPages_bound lb per :
  let q := totalPages (getLeaderboardPage lb 0 per) in
  0 <= q /\ Z.pos per * q <= Z.of_nat (List.length lb) + Z.pos per - 1 /\
  Z.of_nat (List.length lb) <= Z.pos per * q.
Proof.
  cbn zeta. unfold getLeaderboardPage; cbn [totalPages].
  set (L := Z.of_nat (List.length lb)).
  pose proof (Z.div_mod (L + Z.pos per - 1) (Z.pos per) ltac:(lia)) as Hdm.
  pose proof (Z.mod_pos_bound (L + Z.pos per - 1) (Z.pos per) ltac:(lia)) as Hr.
  assert (0 <= L) by (unfold L; lia).
  assert (0 <= (L + Z.pos per - 1) / Z.pos per) by (apply Z.div_pos; lia).
  lia.
Qed.

(** The pages of [getLeaderboardPage] split the leaderboard: pages
    [0 .. totalPages - 1], concatenated in order, give back the whole
    leaderboard, and every page from [totalPages] on is empty. *)
Theorem pages_partition (lb : list entry) (per : positive) :
  List.concat (map (fun p => entries (getLeaderboardPage lb p per))
            (seq 0 (Z.to_nat (totalPages (getLeaderboardPage lb 0 per))))) = lb /\
  (forall p : nat, totalPages (getLeaderboardPage lb 0 per) <= Z.of_nat p ->
     entries (getLeaderboardPage lb p per) = []).
Proof.
  destruct (totalPages_bound lb per) as [Hq0 [_ Hq]].
  set (q := totalPages (getLeaderboardPage lb 0 per)) in *.
  split.
  - rewrite (map_ext _ _ (fun p => page_entries_eq lb p per)).
    rewrite concat_pages. rewrite Nat.mul_0_l, skipn_0.
    apply firstn_all2. apply Nat2Z.inj_le.
    rewrite Nat2Z.inj_mul, Z2Nat.id, positive_nat_Z by exact Hq0. lia.
  - intros p Hp. rewrite page_entries_eq. rewrite skipn_all2; [apply firstn_nil|].
    apply Nat2Z.inj_le. rewrite Nat2Z.inj_mul, positive_nat_Z. nia.
Qed.

(** The [index]-th row that [displayCurrentPage()] shows is the leaderboard
    entry at position [rank - 1], where [rank] is the number printed in
    front of it, and a page has at most [itemsPerPage] rows. *)
Theorem displayed_row_rank (lb : list entry) (currentPage index : nat) (e : entry)
  (Hrow : nth_error (LeaderboardScene.displayCurrentPage lb currentPage) index = Some e) :
  (index < 6)%nat /\
  nth_error lb (LeaderboardScene.rank currentPage index - 1) = Some e.
Proof.
  unfold LeaderboardScene.displayCurrentPage in Hrow. rewrite page_entries_eq in Hrow.
  rewrite nth_error_firstn in Hrow.
  change (Pos.to_nat LeaderboardScene.itemsPerPage) with 6%nat in Hrow.
  destruct (Nat.ltb_spec index 6) as [Hi|Hi]; [|discriminate].
  rewrite nth_error_skipn in Hrow. split; [exact Hi|].
  unfold LeaderboardScene.rank. change (Pos.to_nat LeaderboardScene.itemsPerPage) with 6%nat.
  replace (currentPage * 6 + index + 1 - 1)%nat with (currentPage * 6 + index)%nat by lia.
  exact Hrow.
Qed.

Lemma displayed_row_rank_witness :
  exists e,
    nth_error (LeaderboardScene.displayCurrentPage Samples.hundred_entries 2) 3 = Some e /\
    (3 < 6)%nat /\
    nth_error Samples.hundred_entries (LeaderboardScene.rank 2 3 - 1) = Some e.
Proof.
  destruct (nth_error (LeaderboardScene.displayCurrentPage Samples.hundred_entries 2) 3)
    as [e|] eqn:E; [|vm_compute in E; discriminate].
  exists e. split; [reflexivity|].
  apply (displayed_row_rank Samples.hundred_entries 2 3 e). exact E.
Defined.

Lemma press_in_range tp c b :
  (Z.of_nat c < tp \/ c = 0%nat) ->
  (Z.of_nat (LeaderboardScene.press tp c b) < tp \/ LeaderboardScene.press tp c b = 0%nat).
Proof.
  intros H. destruct b; simpl.
  - destruct (Nat.ltb_spec 0 c); [|exact H]. destruct H as [H|H]; [left; lia|right; lia].
  - destruct (Z.ltb_spec (Z.of_nat c) (tp - 1)); [left; lia|exact H].
Qed.

(** Whatever PREV and NEXT presses the player makes in the leaderboard
    scene, the current page stays below [totalPages], and on a non-empty
    leaderboard the page displayed is never empty. *)
Theorem navigate_page_nonempty (lb : list entry) (bs : list LeaderboardScene.button)
  (Hlb : lb <> []) :
  Z.of_nat (LeaderboardScene.navigate lb bs) < LeaderboardScene.createLeaderboardEntries lb /\
  LeaderboardScene.displayCurrentPage lb (LeaderboardScene.navigate lb bs) <> [].
Proof.
  destruct (totalPages_bound lb LeaderboardScene.itemsPerPage) as [Hq0 [Hq1 Hq]].
  unfold LeaderboardScene.navigate, LeaderboardScene.displayCurrentPage.
  fold (LeaderboardScene.createLeaderboardEntries lb) in *.
  set (tp := LeaderboardScene.createLeaderboardEntries lb) in *.
  assert (Hlen : (1 <= List.length lb)%nat) by (destruct lb; [contradiction|simpl; lia]).
  assert (Hinv : forall bs c, (Z.of_nat c < tp \/ c = 0%nat) ->
            (Z.of_nat (fold_left (LeaderboardScene.press tp) bs c) < tp \/
             fold_left (LeaderboardScene.press tp) bs c = 0%nat)).
  { induction bs0 as [|b bs0 IH]; intros c Hc; [exact Hc|]. apply IH, press_in_range, Hc. }
  assert (Hc : Z.of_nat (fold_left (LeaderboardScene.press tp) bs 0%nat) < tp).
  { destruct (Hinv bs 0%nat (or_intror eq_refl)) as [H|H]; [exact H|].
    rewrite H. change (Z.pos LeaderboardScene.itemsPerPage) with 6 in *. lia. }
  split; [exact Hc|].
  set (c := fold_left (LeaderboardScene.press tp) bs 0%nat) in *.
  rewrite page_entries_eq. change (Pos.to_nat LeaderboardScene.itemsPerPage) with 6%nat.
  change (Z.pos LeaderboardScene.itemsPerPage) with 6 in *.
  assert (Hlt : (c * 6 < List.length lb)%nat) by lia.
  destruct (skipn (c * 6) lb) eqn:E.
  - apply (f_equal (@List.length entry)) in E. rewrite length_skipn in E. simpl in E. lia.
  - simpl. discriminate.
Qed.

Lemma navigate_page_nonempty_witness :
  Samples.two_players <> [] /\
  Z.of_nat (LeaderboardScene.navigate Samples.two_players
              [LeaderboardScene.NextButton; LeaderboardScene.PrevButton]) <
    LeaderboardScene.createLeaderboardEntries Samples.two_players /\
  LeaderboardScene.displayCurrentPage Samples.two_players
    (LeaderboardScene.navigate Samples.two_players
       [LeaderboardScene.NextButton; LeaderboardScene.PrevButton]) <> [].
Proof.
  split; [discriminate|].
  apply navigate_page_nonempty. discriminate.
Defined.

End PaginationProofs.

(** ** Invariants of the game scene *)
Module GameInvariantProofs.
Import GameScene.

Ltac scene_simpl := cbn -[Z.mul Z.add Z.sub Z.div Z.max Z.ltb inject_Z Qplus] in *.

Ltac unfold_step :=
  unfold step, update, levelUp, spawnCoin, collectCoin, hitObstacle,
    handleReviveGameOver, handleNormalGameOver, saveScoreToLeaderboard, halt,
    startGame, restartGame, performRestart, performStartGame, useRevive,
    togglePause, jump, grantRevivePowerUp.

Ltac case_ifs :=
  repeat match goal with
         | |- context [if ?b then _ else _] =>
             let E := fresh "E" in destruct b eqn:E
         end.

Lemma run_preserves (P : World -> Prop) :
  (forall ev w, P w -> P (fst (step ev w))) ->
  forall evs w, P w -> P (fst (run evs w)).
Proof.
  intros Hstep evs. induction evs as [|ev evs IH]; intros w Hw; [exact Hw|].
  rewrite GameProofs.run_cons. cbn [fst]. apply IH, Hstep, Hw.
Qed.

Lemma step_config ev (w : World) :
  1 <= level (fst w) ->
  spawnDelay (fst w) = Z.max 500 (1500 - (level (fst w) - 1) * 150) ->
  timerDelay (fst w) = spawnDelay (fst w) ->
  (150 <= speed (fst w))%Q ->
  let s' := fst (fst (step ev w)) in
  1 <= level s' /\ spawnDelay s' = Z.max 500 (1500 - (level s' - 1) * 150) /\
  timerDelay s' = spawnDelay s' /\ (150 <= speed s')%Q.
Proof.
  destruct w as [s st]. cbn [fst]. intros H1 H2 H3 H4. cbv zeta.
  destruct ev; unfold_step; scene_simpl; case_ifs; scene_simpl.
  all: try (repeat split; assumption).
  all: repeat match goal with H : (_ <? _) = true |- _ => apply Z.ltb_lt in H end.
  all: unfold INITIAL_SPAWN_DELAY, MIN_SPAWN_DELAY, SPAWN_DELAY_REDUCTION,
         INITIAL_SPEED, SPEED_INCREMENT, LEVEL_SPEED_BONUS in *.
  all: try (repeat split; (lia || lra)).
  all: match goal with |- context [inject_Z ?z] =>
         assert (0 <= inject_Z z)%Q
           by (change 0%Q with (inject_Z 0); rewrite <- Zle_Qle; lia) end.
  all: repeat split; (lia || lra || reflexivity).
Qed.

(** In every state the scene reaches from its creation, whatever the
    inputs: the level is at least 1, the spawn delay is the one of the
    level ([max 500 (1500 - 150 (level - 1))]), the spawn timer runs with
    that delay, and the speed is at least [INITIAL_SPEED]. *)
Theorem reachable_spawn_config (st : Store) (evs : list event) :
  let s := fst (fst (run evs (initializeGameState st, st))) in
  1 <= level s /\
  spawnDelay s = Z.max MIN_SPAWN_DELAY
                   (INITIAL_SPAWN_DELAY - (level s - 1) * SPAWN_DELAY_REDUCTION) /\
  timerDelay s = spawnDelay s /\ (INITIAL_SPEED <= speed s)%Q.
Proof.
  cbv zeta. unfold MIN_SPAWN_DELAY, INITIAL_SPAWN_DELAY, SPAWN_DELAY_REDUCTION, INITIAL_SPEED.
  apply (run_preserves (fun w =>
    1 <= level (fst w) /\
    spawnDelay (fst w) = Z.max 500 (1500 - (level (fst w) - 1) * 150) /\
    timerDelay (fst w) = spawnDelay (fst w) /\ (150 <= speed (fst w))%Q)).
  - intros ev w [H1 [H2 [H3 H4]]]. exact (step_config ev w H1 H2 H3 H4).
  - cbn [fst level spawnDelay timerDelay speed initializeGameState].
    split; [lia|split; [reflexivity|split; [reflexivity|apply Qle_refl]]].
Qed.

Lemma step_mirror ev (w : World) :
  st_currentScore (snd w) = score (fst w) ->
  st_highScore (snd w) = highScore (fst w) ->
  st_gamePlayCount (snd w) = gamePlayCount (fst w) ->
  let w' := fst (step ev w) in
  st_currentScore (snd w') = score (fst w') /\
  st_highScore (snd w') = highScore (fst w') /\
  st_gamePlayCount (snd w') = gamePlayCount (fst w') /\
  highScore (fst w) <= highScore (fst w').
Proof.
  destruct w as [s st]. cbn [fst snd]. intros H1 H2 H3. cbv zeta.
  destruct ev; unfold_step; scene_simpl; case_ifs; scene_simpl.
  all: repeat match goal with H : (_ <? _) = true |- _ => apply Z.ltb_lt in H end.
  all: repeat split; lia.
Qed.

(** From the scene's creation, whatever the inputs: the stored
    ['currentScore'], ['highScore'] and ['gamePlayCount'] always equal the
    scene's [score], [highScore] and [gamePlayCount], and the high score
    never goes below the stored one the scene started from. *)
Theorem reachable_store_mirror (st : Store) (evs : list event) :
  let w := fst (run evs (initializeGameState st, st)) in
  st_currentScore (snd w) = score (fst w) /\
  st_highScore (snd w) = highScore (fst w) /\
  st_gamePlayCount (snd w) = gamePlayCount (fst w) /\
  st_highScore st <= highScore (fst w).
Proof.
  cbv zeta.
  apply (run_preserves (fun w =>
    st_currentScore (snd w) = score (fst w) /\
    st_highScore (snd w) = highScore (fst w) /\
    st_gamePlayCount (snd w) = gamePlayCount (fst w) /\
    st_highScore st <= highScore (fst w))).
  - intros ev w [H1 [H2 [H3 H4]]].
    destruct (step_mirror ev w H1 H2 H3) as [G1 [G2 [G3 G4]]].
    repeat split; [exact G1|exact G2|exact G3|lia].
  - cbn [fst snd score highScore gamePlayCount initializeGameState].
    repeat split; lia.
Qed.

Lemma step_level_score ev (w : World) :
  (gameStarted (fst w) = false -> level (fst w) = 1) ->
  (gameStarted (fst w) = true -> 0 <= score (fst w)) ->
  level (fst w) <= Z.max 1 (score (fst w) / SCORE_PER_LEVEL + 1) ->
  let s' := fst (fst (step ev w)) in
  (gameStarted s' = false -> level s' = 1) /\
  (gameStarted s' = true -> 0 <= score s') /\
  level s' <= Z.max 1 (score s' / SCORE_PER_LEVEL + 1).
Proof.
  destruct w as [s st]. cbn [fst snd]. intros H1 H2 H3. cbv zeta.
  destruct (gameStarted s) eqn:G;
    [specialize (H2 eq_refl); clear H1|specialize (H1 eq_refl); clear H2].
  all: destruct ev; unfold_step; scene_simpl; rewrite ?G; scene_simpl; case_ifs;
    scene_simpl; rewrite ?G in *; cbn in *; try discriminate.
  all: repeat match goal with H : (_ <? _) = true |- _ => apply Z.ltb_lt in H end.
  all: unfold SCORE_PER_LEVEL, SCORE_PER_COIN in *.
  all: try match goal with |- context [(?a + 10) / 100] =>
         assert (a / 100 <= (a + 10) / 100) by (apply Z.div_le_mono; lia) end.
  all: repeat split; intros; try discriminate; lia.
Qed.

(** From the scene's creation, whatever the inputs: before START the level
    is 1, once the game has started the score is never negative (even when
    the stored score the scene started from was), and the level never runs
    ahead of the score ([level <= max 1 (score / 100 + 1)]). *)
Theorem reachable_level_score (st : Store) (evs : list event) :
  let s := fst (fst (run evs (initializeGameState st, st))) in
  (gameStarted s = false -> level s = 1) /\
  (gameStarted s = true -> 0 <= score s) /\
  level s <= Z.max 1 (score s / SCORE_PER_LEVEL + 1).
Proof.
  cbv zeta.
  apply (run_preserves (fun w =>
    (gameStarted (fst w) = false -> level (fst w) = 1) /\
    (gameStarted (fst w) = true -> 0 <= score (fst w)) /\
    level (fst w) <= Z.max 1 (score (fst w) / SCORE_PER_LEVEL + 1))).
  - intros ev w [H1 [H2 H3]]. exact (step_level_score ev w H1 H2 H3).
  - cbn [fst level gameStarted initializeGameState].
    split; [reflexivity|split; [discriminate|lia]].
Qed.

(** One input changes the score only by one coin's worth, by resetting
    it to 0 (START, RESTART, closing the ad popup), or not at all. *)
Theorem step_score_moves (ev : event) (w : World) :
  let sc := score (fst (fst (step ev w))) in
  sc = score (fst w) \/ sc = score (fst w) + SCORE_PER_COIN \/ sc = 0.
Proof.
  destruct w as [s st]. cbv zeta.
  destruct ev; unfold_step; scene_simpl; case_ifs; scene_simpl; tauto.
Qed.

(** While the game is over or paused, frames and spawn-timer firings leave
    the scene and the store untouched and create no coin. *)
Theorem halted_frames_inert (evs : list event) (w : World)
  (Hhalt : (gameOver (fst w) || isPaused (fst w))%bool = true)
  (Hevs : Forall (fun ev => match ev with
                            | EvUpdate _ | EvSpawnTick _ => True
                            | _ => False
                            end) evs) :
  run evs w = (w, []).
Proof.
  induction Hevs as [|ev evs Hev _ IH]; [reflexivity|].
  destruct w as [s st]. cbn [fst] in Hhalt.
  assert (Hs : step ev (s, st) = ((s, st), None)).
  { destruct ev; try contradiction; unfold step.
    - unfold update. destruct (gameOver s), (isPaused s); try discriminate;
        rewrite ?orb_true_r; reflexivity.
    - destruct (gameOver s), (isPaused s); try discriminate; reflexivity. }
  rewrite GameProofs.run_cons, Hs. cbn [fst snd]. rewrite IH. reflexivity.
Qed.

Lemma halted_frames_inert_witness :
  (gameOver (fst (hitObstacle "1/1/2026" Samples.world100)) ||
   isPaused (fst (hitObstacle "1/1/2026" Samples.world100)))%bool = true /\
  Forall (fun ev => match ev with
                    | EvUpdate _ | EvSpawnTick _ => True
                    | _ => False
                    end) [EvUpdate true; EvSpawnTick 5; EvUpdate false] /\
  run [EvUpdate true; EvSpawnTick 5; EvUpdate false]
      (hitObstacle "1/1/2026" Samples.world100) =
    (hitObstacle "1/1/2026" Samples.world100, []).
Proof.
  split; [vm_compute; reflexivity|]. split; [repeat constructor|].
  apply halted_frames_inert; [vm_compute; reflexivity|repeat constructor].
Defined.

Lemma no_revive_coin_while_flag_set (evs : list event) (w : World) :
  reviveGivenThisLevel (fst w) = true ->
  level_rises evs w = false ->
  count_revive (snd (run evs w)) = 0%nat.
Proof.
  revert w. induction evs as [|ev evs IH]; intros w Hf Hr; [reflexivity|].
  simpl in Hr. apply orb_false_iff in Hr as [Hlt Hrest].
  rewrite GameProofs.run_cons. cbn [snd].
  destruct (GameProofs.step_revive_flag ev w) as [[Hf1 Hs]|[[Hl _]|[Hf0 _]]].
  - rewrite <- Hf1 in Hf. specialize (IH _ Hf Hrest).
    destruct (snd (step ev w)) as [[|]|]; [|contradiction|exact IH].
    unfold count_revive in *. simpl. exact IH.
  - apply Z.ltb_lt in Hl. congruence.
  - congruence.
Qed.

(** [performRestart()] resets the level to 1 but does not clear the
    per-level revive flag: when a revive coin was already given in the
    level the game ended in, the restarted game creates no revive coin,
    whatever the inputs, as long as the level has not risen to 2. *)
Theorem restart_keeps_revive_flag (w : World) (evs : list event)
  (Hgiven : reviveGivenThisLevel (fst w) = true)
  (Hlevel : level_rises evs (performRestart w) = false) :
  level (fst (performRestart w)) = 1 /\
  count_revive (snd (run evs (performRestart w))) = 0%nat.
Proof.
  split; [destruct w; reflexivity|].
  apply no_revive_coin_while_flag_set; [|exact Hlevel].
  destruct w as [s st]. exact Hgiven.
Qed.

Lemma restart_keeps_revive_flag_witness :
  reviveGivenThisLevel (fst (fst (step (EvSpawnTick 1) Samples.world100))) = true /\
  level_rises Samples.spawn_events
    (performRestart (fst (step (EvSpawnTick 1) Samples.world100))) = false /\
  level (fst (performRestart (fst (step (EvSpawnTick 1) Samples.world100)))) = 1 /\
  count_revive (snd (run Samples.spawn_events
    (performRestart (fst (step (EvSpawnTick 1) Samples.world100))))) = 0%nat.
Proof.
  split; [vm_compute; reflexivity|]. split; [vm_compute; reflexivity|].
  apply restart_keeps_revive_flag; vm_compute; reflexivity.
Defined.

End GameInvariantProofs.

(** ** Jumps and the leaderboard order *)
Module OrderProofs.
Import ScoreManager.

(** Airborne, however many times the player presses jump, [jump()] sets
    the vertical velocity at most once (the double jump), and only if the
    double jump was still available; the double jump is then used up. *)
Theorem airborne_jumps (tds : list bool) (s : GameScene.Scene)
  (Hair : Forall (fun td => td = false) tds) :
  snd (GameSceneInputs.jumps tds s) =
    (if (GameScene.canDoubleJump s && negb (Nat.eqb (List.length tds) 0))%bool
     then [GameSceneInputs.DOUBLE_JUMP_VELOCITY] else []) /\
  GameScene.canDoubleJump (fst (GameSceneInputs.jumps tds s)) =
    (GameScene.canDoubleJump s && Nat.eqb (List.length tds) 0)%bool.
Proof.
  revert s. induction Hair as [|td tds Htd Hair IH]; intros s.
  - cbn [GameSceneInputs.jumps fst snd]. destruct (GameScene.canDoubleJump s); split; reflexivity.
  - subst td. specialize (IH (GameScene.jump false s)). cbn [GameSceneInputs.jumps].
    destruct (GameSceneInputs.jumps tds (GameScene.jump false s)) as [s' vs].
    cbn [fst snd] in *. unfold GameSceneInputs.jump_velocity.
    unfold GameScene.jump in IH.
    destruct (GameScene.canDoubleJump s) eqn:C; cbn in IH |- *;
      rewrite ?C in IH; cbn in IH; destruct IH as [-> ->]; split; reflexivity.
Qed.

Lemma airborne_jumps_witness :
  Forall (fun td => td = false) [false; false; false] /\
  snd (GameSceneInputs.jumps [false; false; false] Samples.running0) =
    [GameSceneInputs.DOUBLE_JUMP_VELOCITY] /\
  GameScene.canDoubleJump (fst (GameSceneInputs.jumps [false; false; false]
                                  Samples.running0)) = false.
Proof.
  split; [repeat constructor|].
  destruct (airborne_jumps [false; false; false] Samples.running0
              ltac:(repeat constructor)) as [H1 H2].
  rewrite H1, H2. split; reflexivity.
Defined.

Lemma sorted_head_ge y t : Sorted desc (y :: t) -> Forall (fun z => score z <= score y) t.
Proof.
  intros H. apply Sorted_StronglySorted in H.
  - inversion H as [|? ? _ Hf]. exact Hf.
  - unfold Relations_1.Transitive, desc. intros a b c H1 H2. lia.
Qed.

Lemma insert_desc_split x l :
  Sorted desc l ->
  insert_desc x l =
  filter (fun y => score x <=? score y) l ++
  x :: filter (fun y => negb (score x <=? score y)) l.
Proof.
  induction l as [|y t IH]; intros Hs; [reflexivity|].
  simpl. destruct (Z.leb_spec (score x) (score y)) as [Hxy|Hxy]; simpl.
  - rewrite IH by (inversion Hs; assumption). reflexivity.
  - pose proof (sorted_head_ge y t Hs) as Hge.
    assert (Hnone : forall z, In z t -> (score x <=? score z) = false).
    { intros z Hz. rewrite Forall_forall in Hge. specialize (Hge z Hz).
      apply Z.leb_gt. lia. }
    assert (Hall : forall z, In z t -> negb (score x <=? score z) = true).
    { intros z Hz. rewrite Hnone by exact Hz. reflexivity. }
    rewrite (filter_ext_in (fun z => score x <=? score z) (fun _ => false) t Hnone),
      filter_false.
    rewrite (forallb_filter_id _ t) by (apply forallb_forall; exact Hall).
    reflexivity.
Qed.

Lemma insert_desc_last x acc :
  Forall (fun y => score x <= score y) acc -> insert_desc x acc = acc ++ [x].
Proof.
  induction 1 as [|y acc Hy _ IH]; [reflexivity|].
  simpl. apply Z.leb_le in Hy. rewrite Hy, IH. reflexivity.
Qed.

Lemma StronglySorted_app_mid acc x l :
  StronglySorted desc (acc ++ x :: l) -> Forall (fun y => score x <= score y) acc.
Proof.
  induction acc as [|a acc IH]; intros H; [constructor|].
  inversion H as [|? ? Hs Hf]; subst. constructor.
  - rewrite Forall_forall in Hf. apply (Hf x). apply in_or_app. right. left. reflexivity.
  - apply IH, Hs.
Qed.

Lemma sort_desc_sorted_id l : Sorted desc l -> sort_desc l = l.
Proof.
  intros Hs. unfold sort_desc.
  assert (H : forall l acc, StronglySorted desc (acc ++ l) ->
            fold_left (fun acc x => insert_desc x acc) l acc = acc ++ l).
  { induction l0 as [|x l0 IH]; intros acc H; simpl; [symmetry; apply app_nil_r|].
    rewrite insert_desc_last by (exact (StronglySorted_app_mid acc x l0 H)).
    rewrite IH; [rewrite <- app_assoc; reflexivity|].
    rewrite <- app_assoc. exact H. }
  apply H. simpl. apply Sorted_StronglySorted; [|exact Hs].
  unfold Relations_1.Transitive, desc. intros a b c H1 H2. lia.
Qed.

(** On a leaderboard kept in descending order, [addToLeaderboard] puts the
    new entry after every entry whose score is at least as high (a tie
    ranks below the older entries) and before every lower one, keeps the
    order of the old entries, and then cuts the list to 100 entries. *)
Theorem addToLeaderboard_position (lb : list entry) (s l : Z) (u : option string)
  (today : string) (Hsorted : Sorted desc lb) :
  addToLeaderboard lb s l u today =
  firstn 100 (filter (fun y => s <=? score y) lb ++
              mkEntry s today l (or_anonymous u) ::
              filter (fun y => negb (s <=? score y)) lb).
Proof.
  rewrite LeaderboardProofs.addToLeaderboard_eq. f_equal.
  unfold sort_desc. rewrite fold_left_app. cbn [fold_left].
  fold (sort_desc lb). rewrite sort_desc_sorted_id by exact Hsorted.
  apply insert_desc_split, Hsorted.
Qed.

Lemma addToLeaderboard_position_witness :
  Sorted desc Samples.two_players /\
  addToLeaderboard Samples.two_players 30 2 (Some "Carol"%string) "2/1/2026" =
  firstn 100 (filter (fun y => 30 <=? score y) Samples.two_players ++
              mkEntry 30 "2/1/2026" 2 (or_anonymous (Some "Carol"%string)) ::
              filter (fun y => negb (30 <=? score y)) Samples.two_players).
Proof.
  assert (H : Sorted desc Samples.two_players).
  { unfold Samples.two_players, Samples.bob_entry.
    repeat constructor; unfold desc; simpl; lia. }
  split; [exact H|]. apply addToLeaderboard_position. exact H.
Defined.

End OrderProofs.
